(** * pr5.bank_system: a multi-currency bank ledger

    Shallow embedding of [src/pr5/bank_system.py] and proofs about it.

    The ledger computes with Python's [decimal.Decimal] under the default
    arithmetic context (precision 28, ROUND_HALF_EVEN, Emax = 999999,
    Emin = -999999, clamp = 0, traps on InvalidOperation, DivisionByZero and
    Overflow).  Module [Dec] embeds the part of that library the ledger
    calls, following the reference implementation (_pydecimal): a number is
    a sign, a coefficient and an exponent, every arithmetic result goes
    through [_fix], and a trapped signal is an exception.

    Objects live in a store: accounts and transaction lists are heap
    objects named by references, so that two names for one object (a
    transfer from an account to itself, a list handed out to a caller)
    behave as they do in Python.

    Conventions of the embedding:
    - a method is a function from the store to an outcome (a value or an
      exception) and the store it leaves;
    - a float argument is represented by the decimal number its repr
      denotes, since the code only ever reads a float through [str];
    - a converter is its [convert] method, a function of its arguments;
    - currency codes and owners are strings. *)

From stdpp Require Import gmap strings list fin_maps.
From Stdlib Require Import ZArith NArith Lia String Ascii.

(** ** Exceptions and outcomes *)

(** The exception classes the ledger can raise or let through. *)
Inductive exn : Type :=
  | TypeError
  | ValueError
  | PermissionError
  | AttributeError
  | InvalidOperation   (* decimal.InvalidOperation *)
  | Overflow.          (* decimal.Overflow *)

Inductive result (A : Type) : Type :=
  | Ok (a : A)
  | Raise (e : exn).
Arguments Ok {A} a.
Arguments Raise {A} e.

#[global] Instance result_ret : MRet result := fun A a => Ok a.
#[global] Instance result_bind : MBind result := fun A B k r =>
  match r with
  | Ok a => k a
  | Raise e => Raise e
  end.

#[global] Instance exn_eq_dec : EqDecision exn.
Proof. solve_decision. Defined.

(** ** decimal.Decimal under the default context *)

Module Dec.
Local Open Scope Z_scope.

(** [Fin sign coef exp] is (-1)^sign * coef * 10^exp; [_int] is the decimal
    digit string of [coef].  The sign and payload of a NaN only show when it
    is printed and are left out. *)
Inductive Decimal : Type :=
  | Fin (sign : bool) (coef : N) (exp : Z)
  | Inf (sign : bool)
  | NaN (signaling : bool).

#[global] Instance Decimal_eq_dec : EqDecision Decimal.
Proof. solve_decision. Defined.

Inductive rounding : Type := ROUND_HALF_UP | ROUND_HALF_EVEN.

(** The default context. *)
Definition prec : Z := 28.
Definition Emax : Z := 999999.
Definition Emin : Z := -999999.
Definition Etiny : Z := Emin - prec + 1.
Definition Etop : Z := Emax - prec + 1.
Definition context_rounding : rounding := ROUND_HALF_EVEN.

Definition pow10 (k : Z) : N := (10 ^ Z.to_N k)%N.

(** [len(self._int)]: the number of decimal digits of the coefficient
    (1 for zero). *)
Fixpoint ndigits_aux (fuel : nat) (n : N) : Z :=
  match fuel with
  | O => 1
  | S f => if (n <? 10)%N then 1 else 1 + ndigits_aux f (n / 10)%N
  end.

Definition ndigits (n : N) : Z := ndigits_aux (N.to_nat (N.log2 n)) n.

(** [_round_half_up] and [_round_half_even], on a coefficient split into
    the kept digits [q] and the dropped part [r] of [p = 10^k]: is the kept
    part incremented? *)
Definition round_up (m : rounding) (q r p : N) : bool :=
  match m with
  | ROUND_HALF_UP => (p <=? 2 * r)%N
  | ROUND_HALF_EVEN => ((p <? 2 * r) || ((2 * r =? p) && N.odd q))%N
  end.

(** Cut a non-zero coefficient after its [digits] leading digits
    ([self._int[:digits] or '0']) and ask the rounding function whether the
    kept part is incremented.  When [digits < 0] the number is first replaced
    by 1 at the exponent just below the target, as [_rescale] and [_fix]
    both do. *)
Definition cut (m : rounding) (c : N) (digits : Z) : N * bool :=
  let c := if digits <? 0 then 1%N else c in
  let digits := if digits <? 0 then 0 else digits in
  let p := pow10 (ndigits c - digits) in
  let q := (c / p)%N in
  let r := (c mod p)%N in
  (q, round_up m q r p).

(** [Decimal._fix]: round to the context's precision and exponent range. *)
Definition _fix (s : bool) (c : N) (e : Z) : result Decimal :=
  if (c =? 0)%N then
    Ok (Fin s 0 (Z.min (Z.max e Etiny) Emax))
  else
    let exp_min := ndigits c + e - prec in
    if exp_min >? Etop then Raise Overflow
    else
      let exp_min := if exp_min <? Etiny then Etiny else exp_min in
      if e <? exp_min then
        let digits := ndigits c + e - exp_min in
        let '(coeff, changed) := cut context_rounding c digits in
        let '(coeff, exp_min) :=
          if changed then
            if ndigits (coeff + 1) >? prec
            then (((coeff + 1) / 10)%N, exp_min + 1)
            else ((coeff + 1)%N, exp_min)
          else (coeff, exp_min) in
        if exp_min >? Etop then Raise Overflow
        else Ok (Fin s coeff exp_min)
      else Ok (Fin s c e).

(** [Decimal._rescale] on a finite number: the coefficient at exponent
    [exp]. *)
Definition _rescale (m : rounding) (c : N) (e exp : Z) : N :=
  if (c =? 0)%N then 0%N
  else if e >=? exp then (c * pow10 (e - exp))%N
  else
    let '(coeff, changed) := cut m c (ndigits c + e - exp) in
    if changed then (coeff + 1)%N else coeff.

(** [Decimal._check_nans]: a signaling NaN raises, a quiet one is the
    answer. *)
Definition is_snan (d : Decimal) : bool :=
  match d with NaN true => true | _ => false end.
Definition is_nan (d : Decimal) : bool :=
  match d with NaN _ => true | _ => false end.

Definition check_nans (a b : Decimal) : result (option Decimal) :=
  if is_snan a || is_snan b then Raise InvalidOperation
  else if is_nan a || is_nan b then Ok (Some (NaN false))
  else Ok None.

(** [Decimal.quantize(exp, rounding)]. *)
Definition quantize (d q : Decimal) (m : rounding) : result Decimal :=
  ans ← check_nans d q;
  match ans with
  | Some n => Ok n
  | None =>
    match d, q with
    | Inf s, Inf _ => Ok (Inf s)
    | Fin s c e, Fin _ _ exp =>
      if negb ((Etiny <=? exp) && (exp <=? Emax)) then Raise InvalidOperation
      else if (c =? 0)%N then _fix s 0 exp
      else
        let self_adjusted := e + ndigits c - 1 in
        if self_adjusted >? Emax then Raise InvalidOperation
        else if self_adjusted - exp + 1 >? prec then Raise InvalidOperation
        else
          let c' := _rescale m c e exp in
          if exp + ndigits c' - 1 >? Emax then Raise InvalidOperation
          else if ndigits c' >? prec then Raise InvalidOperation
          else _fix s c' exp
    | _, _ => Raise InvalidOperation
    end
  end.

(** The signed coefficient. *)
Definition sval (s : bool) (c : N) : Z :=
  if s then - Z.of_N c else Z.of_N c.

(** [_normalize(op1, op2, prec)]: bring two non-zero operands to one
    exponent.  [tmp] is the operand with the larger exponent; an [other]
    too small to matter after rounding is replaced by 1 at a nearby
    exponent.  Returns both coefficients and the common exponent. *)
Definition _normalize (c1 : N) (e1 : Z) (c2 : N) (e2 : Z) : N * N * Z :=
  if e1 <? e2 then
    let exp := e2 + Z.min (-1) (ndigits c2 - prec - 2) in
    let '(c1, e1) :=
      if ndigits c1 + e1 - 1 <? exp then (1%N, exp) else (c1, e1) in
    (c1, (c2 * pow10 (e2 - e1))%N, e1)
  else
    let exp := e1 + Z.min (-1) (ndigits c1 - prec - 2) in
    let '(c2, e2) :=
      if ndigits c2 + e2 - 1 <? exp then (1%N, exp) else (c2, e2) in
    ((c1 * pow10 (e1 - e2))%N, c2, e2).

(** [Decimal.__add__] on two finite numbers.  The context does not round
    with ROUND_FLOOR, so [negativezero] is 0. *)
Definition add_fin (s1 : bool) (c1 : N) (e1 : Z)
    (s2 : bool) (c2 : N) (e2 : Z) : result Decimal :=
  let exp := Z.min e1 e2 in
  if ((c1 =? 0) && (c2 =? 0))%N then _fix (s1 && s2) 0 exp
  else if (c1 =? 0)%N then
    let exp := Z.max exp (e2 - prec - 1) in
    _fix s2 (_rescale context_rounding c2 e2 exp) exp
  else if (c2 =? 0)%N then
    let exp := Z.max exp (e1 - prec - 1) in
    _fix s1 (_rescale context_rounding c1 e1 exp) exp
  else
    let '(i1, i2, e) := _normalize c1 e1 c2 e2 in
    if negb (Bool.eqb s1 s2) then
      if (i1 =? i2)%N then _fix false 0 exp
      else if (i1 <? i2)%N then _fix s2 (i2 - i1) e
      else _fix s1 (i1 - i2) e
    else _fix s1 (i1 + i2) e.

(** [Decimal.__add__]. *)
Definition add (a b : Decimal) : result Decimal :=
  ans ← check_nans a b;
  match ans with
  | Some n => Ok n
  | None =>
    match a, b with
    | Inf s1, Inf s2 =>
        if negb (Bool.eqb s1 s2) then Raise InvalidOperation else Ok (Inf s1)
    | Inf s1, _ => Ok (Inf s1)
    | _, Inf s2 => Ok (Inf s2)
    | Fin s1 c1 e1, Fin s2 c2 e2 => add_fin s1 c1 e1 s2 c2 e2
    | _, _ => Raise InvalidOperation
    end
  end.

Definition copy_negate (d : Decimal) : Decimal :=
  match d with
  | Fin s c e => Fin (negb s) c e
  | Inf s => Inf (negb s)
  | NaN g => NaN g
  end.

(** [Decimal.__sub__]: [self + other.copy_negate()]. *)
Definition sub (a b : Decimal) : result Decimal :=
  ans ← check_nans a b;
  match ans with
  | Some n => Ok n
  | None => add a (copy_negate b)
  end.

(** [Decimal.__neg__]: minus zero is plus zero outside ROUND_FLOOR. *)
Definition neg (d : Decimal) : result Decimal :=
  match d with
  | NaN true => Raise InvalidOperation
  | NaN false => Ok (NaN false)
  | Inf s => Ok (Inf (negb s))
  | Fin s c e => if (c =? 0)%N then _fix false c e else _fix (negb s) c e
  end.

(** [Decimal.__mul__]. *)
Definition mul (a b : Decimal) : result Decimal :=
  ans ← check_nans a b;
  match ans with
  | Some n => Ok n
  | None =>
    match a, b with
    | Inf s1, Fin s2 c2 _ =>
        if (c2 =? 0)%N then Raise InvalidOperation else Ok (Inf (xorb s1 s2))
    | Fin s1 c1 _, Inf s2 =>
        if (c1 =? 0)%N then Raise InvalidOperation else Ok (Inf (xorb s1 s2))
    | Inf s1, Inf s2 => Ok (Inf (xorb s1 s2))
    | Fin s1 c1 e1, Fin s2 c2 e2 => _fix (xorb s1 s2) (c1 * c2) (e1 + e2)
    | _, _ => Raise InvalidOperation
    end
  end.

(** [Decimal._cmp] on operands that are not NaN: the exact order of the
    values, read off the coefficients aligned at the smaller exponent. *)
Definition _cmp (a b : Decimal) : comparison :=
  match a, b with
  | Fin s1 c1 e1, Fin s2 c2 e2 =>
      let e := Z.min e1 e2 in
      sval s1 (c1 * pow10 (e1 - e)) ?= sval s2 (c2 * pow10 (e2 - e))
  | Inf s1, Inf s2 => Bool.compare s2 s1
  | Inf s1, _ => if s1 then Lt else Gt
  | _, Inf s2 => if s2 then Gt else Lt
  | _, _ => Eq
  end.

(** The ordering operators: a NaN operand signals InvalidOperation, which
    the context traps. *)
Definition compare (a b : Decimal) : result comparison :=
  if is_nan a || is_nan b then Raise InvalidOperation else Ok (_cmp a b).

Definition lt (a b : Decimal) : result bool :=
  c ← compare a b; Ok (match c with Lt => true | _ => false end).
Definition le (a b : Decimal) : result bool :=
  c ← compare a b; Ok (match c with Gt => false | _ => true end).
Definition gt (a b : Decimal) : result bool :=
  c ← compare a b; Ok (match c with Gt => true | _ => false end).

(** [Decimal(n)] for a Python int. *)
Definition of_int (n : Z) : Decimal := Fin (n <? 0) (Z.abs_N n) 0.

(** *** Printing: [Decimal.__str__] *)

Local Open Scope string_scope.
Local Open Scope Z_scope.

Definition digit_char (d : N) : ascii := ascii_of_N (48 + d).

Fixpoint int_str_aux (fuel : nat) (n : N) (acc : string) : string :=
  match fuel with
  | O => acc
  | S f =>
      let acc := String (digit_char (n mod 10)) acc in
      if (n <? 10)%N then acc else int_str_aux f (n / 10)%N acc
  end.

(** [self._int], the coefficient's digit string. *)
Definition int_str (n : N) : string :=
  int_str_aux (S (N.to_nat (N.log2 n))) n "".

Fixpoint zeros (k : nat) : string :=
  match k with
  | O => ""
  | S k => String "0" (zeros k)
  end.

(** ["%+d" % n]. *)
Definition signed_str (n : Z) : string :=
  (if n <? 0 then "-" else "+") +:+ int_str (Z.abs_N n).

(** [Decimal.__str__] (scientific notation, capital E). *)
Definition __str__ (d : Decimal) : string :=
  match d with
  | Inf s => (if s then "-" else "") +:+ "Infinity"
  | NaN g => if g then "sNaN" else "NaN"
  | Fin s c e =>
      let sign := if s then "-" else "" in
      let _int := int_str c in
      let len := Z.of_nat (String.length _int) in
      let leftdigits := e + len in
      let dotplace :=
        if (e <=? 0) && (leftdigits >? -6) then leftdigits else 1 in
      let '(intpart, fracpart) :=
        if dotplace <=? 0 then
          ("0", "." +:+ zeros (Z.to_nat (- dotplace)) +:+ _int)
        else if dotplace >=? len then
          (_int +:+ zeros (Z.to_nat (dotplace - len)), "")
        else
          (substring 0 (Z.to_nat dotplace) _int,
           "." +:+ substring (Z.to_nat dotplace) (Z.to_nat (len - dotplace)) _int) in
      let exp :=
        if leftdigits =? dotplace then ""
        else "E" +:+ signed_str (leftdigits - dotplace) in
      sign +:+ intpart +:+ fracpart +:+ exp
  end.

End Dec.

Import Dec.

(** ** Python values reaching the ledger *)

(** What a caller can pass where the code expects an amount.  A float is
    used only through [str(value)], so it is represented by the decimal
    number its shortest repr denotes ([1.005] is [Fin false 1005 (-3)],
    [float('inf')] is [Inf false]); every float has one such number. *)
Inductive PyVal : Type :=
  | PyBool (b : bool)
  | PyInt (n : Z)
  | PyFloat (repr : Decimal)
  | PyDecimal (d : Decimal)
  | PyStr (s : string)
  | PyNone.

(** ** Module-level constants *)

Definition SUPPORTED_CURRENCIES : gset string :=
  {[ "RUB"; "USD"; "EUR"; "GBP" ]}%string.

(** [Decimal("0.01")] *)
Definition _MONEY_Q : Decimal := Fin false 1 (-2).

(** [Decimal(str(value))]: an int prints its digits, a float its repr and a
    Decimal itself, and the constructor reads them back exactly.  (The
    interpreter's cap on the length of int-to-str conversions, 4300 digits
    unless configured otherwise, is left out.) *)
Definition Decimal_of_str (value : PyVal) : result Decimal :=
  match value with
  | PyInt n => Ok (of_int n)
  | PyFloat r => Ok r
  | PyDecimal d => Ok d
  | _ => Raise TypeError
  end.

Definition _to_decimal_money (value : PyVal) : result Decimal :=
  match value with
  | PyBool _ => Raise TypeError
  | PyInt _ | PyFloat _ | PyDecimal _ =>
      d ← Decimal_of_str value;
      quantize d _MONEY_Q ROUND_HALF_UP
  | _ => Raise TypeError
  end.

(** ** CurrencyConverter *)

(** A converter object is used through its [convert] method only, and
    subclasses override that method, so the object is its method.  Converters
    do not touch the accounts: [convert] is a function of its arguments. *)
Record Converter : Type :=
  { convert : PyVal -> string -> string -> result Decimal }.

(** The table [CurrencyConverter()] starts with. *)
Definition default_rates : gmap (string * string) Decimal :=
  {[ ("RUB", "USD") := Fin false 1 (-2);
     ("USD", "RUB") := Fin false 100 0;
     ("RUB", "EUR") := Fin false 90909091 (-10);
     ("EUR", "RUB") := Fin false 110 0;
     ("RUB", "GBP") := Fin false 76923077 (-10);
     ("GBP", "RUB") := Fin false 130 0 ]}%string.

(** [rates or {...}]: [None] and the empty dict are both falsy. *)
Definition CurrencyConverter__init__
    (rates : option (gmap (string * string) Decimal))
    : gmap (string * string) Decimal :=
  match rates with
  | Some r => if decide (r = ∅) then default_rates else r
  | None => default_rates
  end.

Definition CurrencyConverter_convert (_rates : gmap (string * string) Decimal)
    (amount : PyVal) (from_currency to_currency : string) : result Decimal :=
  if decide (from_currency ∉ SUPPORTED_CURRENCIES) then Raise ValueError
  else if decide (to_currency ∉ SUPPORTED_CURRENCIES) then Raise ValueError
  else
    match amount with
    | PyDecimal amount =>
        amount ← quantize amount _MONEY_Q ROUND_HALF_UP;
        if decide (from_currency = to_currency) then Ok amount
        else
          match _rates !! (from_currency, to_currency) with
          | None => Raise ValueError
          | Some rate =>
              product ← mul amount rate;
              quantize product _MONEY_Q ROUND_HALF_UP
          end
    | _ => Raise TypeError
    end.

Definition CurrencyConverter
    (rates : option (gmap (string * string) Decimal)) : Converter :=
  {| convert := CurrencyConverter_convert (CurrencyConverter__init__ rates) |}.

(** ** The object store *)

Record BankAccount : Type := mkAccount
  { owner : string;
    balance : Decimal;
    currency : string;
    transactions : positive;      (* reference to a list object *)
    is_blocked : bool;
    overdraft_limit : Decimal }.

(** Account objects and list objects, each by reference. *)
Record store : Type := mkStore
  { accounts : gmap positive BankAccount;
    lists : gmap positive (list string) }.

(** A method runs on the store and either returns or raises; the store it
    leaves behind is kept in both cases. *)
Definition M (A : Type) : Type := store -> result A * store.

#[global] Instance M_ret : MRet M := fun A a st => (Ok a, st).
#[global] Instance M_bind : MBind M := fun A B k m st =>
  match m st with
  | (Ok a, st') => k a st'
  | (Raise e, st') => (Raise e, st')
  end.

Definition raise {A} (e : exn) : M A := fun st => (Raise e, st).
Definition lift {A} (r : result A) : M A := fun st => (r, st).

(** Attribute access on an object that is not an account (or a list)
    raises AttributeError. *)
Definition get_account (self : positive) : M BankAccount := fun st =>
  match accounts st !! self with
  | Some a => (Ok a, st)
  | None => (Raise AttributeError, st)
  end.

(** [isinstance(r, BankAccount)] *)
Definition isinstance_BankAccount (r : positive) : M bool := fun st =>
  (Ok (bool_decide (is_Some (accounts st !! r))), st).

Definition set_balance (b : Decimal) (a : BankAccount) : BankAccount :=
  mkAccount (owner a) b (currency a) (transactions a) (is_blocked a)
    (overdraft_limit a).

Definition set_currency (c : string) (a : BankAccount) : BankAccount :=
  mkAccount (owner a) (balance a) c (transactions a) (is_blocked a)
    (overdraft_limit a).

(** [self.<field> = ...] *)
Definition update_account (self : positive) (f : BankAccount -> BankAccount)
    : M unit := fun st =>
  match accounts st !! self with
  | Some a => (Ok tt, mkStore (<[self := f a]> (accounts st)) (lists st))
  | None => (Raise AttributeError, st)
  end.

(** [l.append(line)] on the list object at [l]. *)
Definition list_append (l : positive) (line : string) : M unit := fun st =>
  match lists st !! l with
  | Some xs => (Ok tt, mkStore (accounts st) (<[l := xs ++ [line]]> (lists st)))
  | None => (Raise AttributeError, st)
  end.

(** ** BankAccount *)

Section BankAccount.
Local Open Scope string_scope.

(** [Decimal("1000000.00")] *)
Definition MAX_DEPOSIT : Decimal := Fin false 100000000 (-2).

(** [converter or CurrencyConverter()] *)
Definition converter_or_default (converter : option Converter) : Converter :=
  match converter with
  | Some c => c
  | None => CurrencyConverter None
  end.

Definition money_q (d : Decimal) : result Decimal :=
  quantize d _MONEY_Q ROUND_HALF_UP.

Definition deposit (self : positive) (amount : PyVal) : M Decimal :=
  amount_d ← lift (_to_decimal_money amount);
  nonpos ← lift (le amount_d (of_int 0));
  if (nonpos : bool) then raise ValueError else
  _ ← get_account self;
  too_large ← lift (gt amount_d MAX_DEPOSIT);
  if (too_large : bool) then raise ValueError else
  a ← get_account self;
  new_balance ← lift (add (balance a) amount_d ≫= money_q);
  update_account self (set_balance new_balance);;
  a ← get_account self;
  list_append (transactions a)
    ("+" +:+ __str__ amount_d +:+ " " +:+ currency a);;
  a ← get_account self;
  mret (balance a).

Definition withdraw (self : positive) (amount : PyVal) : M Decimal :=
  a ← get_account self;
  if is_blocked a then raise PermissionError else
  amount_d ← lift (_to_decimal_money amount);
  nonpos ← lift (le amount_d (of_int 0));
  if (nonpos : bool) then raise ValueError else
  fee ← lift (mul amount_d (Fin false 1 (-2)) ≫= money_q);
  total ← lift (add amount_d fee);
  a ← get_account self;
  insufficient ← lift (rest ← sub (balance a) total;
                       floor ← neg (overdraft_limit a);
                       lt rest floor);
  if (insufficient : bool) then raise ValueError else
  a ← get_account self;
  new_balance ← lift (sub (balance a) total ≫= money_q);
  update_account self (set_balance new_balance);;
  a ← get_account self;
  list_append (transactions a)
    ("-" +:+ __str__ amount_d +:+ " (комиссия: " +:+ __str__ fee +:+ ") "
       +:+ currency a);;
  mret amount_d.

Definition convert_to (self : positive) (target_currency : string)
    (converter : option Converter) : M Decimal :=
  if decide (target_currency ∉ SUPPORTED_CURRENCIES) then raise ValueError else
  let converter := converter_or_default converter in
  a ← get_account self;
  new_balance ← lift (convert converter (PyDecimal (balance a)) (currency a)
                        target_currency);
  update_account self (set_balance new_balance);;
  update_account self (set_currency target_currency);;
  a ← get_account self;
  list_append (transactions a) ("Конвертировать в " +:+ target_currency);;
  a ← get_account self;
  mret (balance a).

(** The snapshot [get_statement] returns; [st_transactions] refers to the
    list object built by [list(self.transactions)]. *)
Record Statement : Type := mkStatement
  { st_owner : string;
    st_currency : string;
    st_balance : Decimal;
    st_transactions : positive;
    st_is_blocked : bool }.

(** [list(xs)]: a new list object with the elements of the one at [l]. *)
Definition list_copy (l : positive) : M positive := fun st =>
  match lists st !! l with
  | Some xs =>
      let l' := fresh (dom (lists st)) in
      (Ok l', mkStore (accounts st) (<[l' := xs]> (lists st)))
  | None => (Raise TypeError, st)
  end.

Definition get_statement (self : positive) : M Statement :=
  a ← get_account self;
  copy ← list_copy (transactions a);
  mret (mkStatement (owner a) (currency a) (balance a) copy (is_blocked a)).

(** [target_account] is [None] for Python's None and a reference
    otherwise; a reference to something that is not an account fails the
    isinstance test. *)
Definition transfer (self : positive) (target_account : option positive)
    (amount : PyVal) (converter : option Converter) : M Decimal :=
  a ← get_account self;
  if is_blocked a then raise PermissionError else
  match target_account with
  | None => raise TypeError
  | Some target_account =>
    is_account ← isinstance_BankAccount target_account;
    if negb is_account then raise TypeError else
    amount_d ← lift (_to_decimal_money amount);
    nonpos ← lift (le amount_d (of_int 0));
    if (nonpos : bool) then raise ValueError else
    let converter := converter_or_default converter in
    a ← get_account self;
    insufficient ← lift (rest ← sub (balance a) amount_d;
                         floor ← neg (overdraft_limit a);
                         lt rest floor);
    if (insufficient : bool) then raise ValueError else
    a ← get_account self;
    t ← get_account target_account;
    credited ← lift (convert converter (PyDecimal amount_d) (currency a)
                       (currency t));
    a ← get_account self;
    new_balance ← lift (sub (balance a) amount_d ≫= money_q);
    update_account self (set_balance new_balance);;
    t ← get_account target_account;
    new_balance ← lift (add (balance t) credited ≫= money_q);
    update_account target_account (set_balance new_balance);;
    a ← get_account self;
    t ← get_account target_account;
    list_append (transactions a)
      ("Передача -" +:+ __str__ amount_d +:+ " " +:+ currency a +:+ " в "
         +:+ owner t);;
    t ← get_account target_account;
    a ← get_account self;
    list_append (transactions t)
      ("Передача +" +:+ __str__ credited +:+ " " +:+ currency t +:+ " от "
         +:+ owner a);;
    mret credited
  end.

End BankAccount.

(** ** Bank *)

(** [accounts] is a dict from owner to account object, kept in insertion
    order as Python dicts are. *)
Record Bank : Type := mkBank
  { name : string;
    bank_accounts : list (string * positive) }.

(** The body of the loop in [total_deposits], over [self.accounts.values()]. *)
Fixpoint total_loop (converter : Converter) (currency0 : string)
    (accs : list positive) (total : Decimal) : M Decimal :=
  match accs with
  | [] => mret total
  | acc :: rest =>
      a ← get_account acc;
      if is_blocked a then total_loop converter currency0 rest total
      else
        a ← get_account acc;
        c ← lift (convert converter (PyDecimal (balance a)) (currency a)
                    currency0);
        total ← lift (add total c);
        total_loop converter currency0 rest total
  end.

Definition total_deposits (self : Bank) (currency0 : string)
    (converter : option Converter) : M Decimal :=
  if decide (currency0 ∉ SUPPORTED_CURRENCIES) then raise ValueError else
  let converter := converter_or_default converter in
  total ← total_loop converter currency0 (snd <$> bank_accounts self)
            (Fin false 0 (-2));
  lift (money_q total).

(** ** Money values *)

(** A money value: finite, exponent -2, and a coefficient the context's 28
    digits can hold.  These are exactly the finite results of
    [quantize(_MONEY_Q)]. *)
Definition money (d : Decimal) : bool :=
  match d with
  | Fin _ c e => (e =? -2)%Z && (c <? pow10 28)%N
  | _ => false
  end.

(** The amount in hundredths. *)
Definition cents (d : Decimal) : Z :=
  match d with
  | Fin s c _ => sval s c
  | _ => 0%Z
  end.

(** The coefficient of [c * 10^e] in hundredths, to the nearest with ties
    away from zero: exact when [e >= -2], and the integer nearest to
    [c / 10^k] with halves going up when [e = -2 - k < -2]. *)
Definition half_up (c : N) (e : Z) : N :=
  if (e >=? -2)%Z then (c * pow10 (e + 2))%N
  else ((2 * c + pow10 (-2 - e)) / (2 * pow10 (-2 - e)))%N.

Local Open Scope Z_scope.

(** On values that are not Decimal objects [convert] stops at its
    isinstance test. *)
Definition is_Decimal (v : PyVal) : bool :=
  match v with PyDecimal _ => true | _ => false end.


(** The sign, coefficient and exponent a finite numeric input denotes. *)
Definition finite_input (v : PyVal) : option (bool * N * Z) :=
  match v with
  | PyInt n => Some (n <? 0, Z.abs_N n, 0)
  | PyFloat (Fin s c e) | PyDecimal (Fin s c e) => Some (s, c, e)
  | _ => None
  end.

(** The outcome of a sum whose exact value is [z] hundredths: the money
    value [z] if it fits, and otherwise a 28-digit number of tenths, which
    normalization then refuses. *)
Definition sum_result (z : Z) (r : result Decimal) : Prop :=
  (Z.abs z < Z.of_N (pow10 28) ->
     exists d, r = Ok d /\ money d = true /\ cents d = z) /\
  (Z.of_N (pow10 28) <= Z.abs z ->
     exists q, r = Ok (Fin (z <? 0) q (-1)) /\
               (pow10 27 <= q <= 2 * pow10 27)%N /\
               10 * Z.of_N q - 5 <= Z.abs z <= 10 * Z.of_N q + 5).

(** ** Specification of the list and bank operations *)

(** Any in-place change of the list object at [l]: [append], [clear],
    [l[i] = x], [sort], ... *)
Definition list_mutate (l : positive) (f : list string -> list string)
    : M unit := fun st =>
  match lists st !! l with
  | Some xs => (Ok tt, mkStore (accounts st) (<[l := f xs]> (lists st)))
  | None => (Raise AttributeError, st)
  end.

(** The accounts of a bank that are not blocked, in dict order. *)
Definition open_accounts (st : store) (refs : list positive)
    : list BankAccount :=
  filter (fun a => is_blocked a = false) (omap (fun r => accounts st !! r) refs).

Definition sum_cents (cs : list Decimal) : Z := foldr Z.add 0 (cents <$> cs).

(** Every running total, starting from [z], fits 28 digits. *)
Fixpoint running_totals_fit (z : Z) (cs : list Decimal) : Prop :=
  match cs with
  | [] => True
  | c :: cs =>
      Z.abs (z + cents c) < Z.of_N (pow10 28) /\
      running_totals_fit (z + cents c) cs
  end.

(** ** Concrete stores *)

Section Examples.
Local Open Scope string_scope.

(** The accounts of the tests: A holds 100.00 RUB, B holds 0.00 USD. *)
Definition account_A : BankAccount :=
  mkAccount "A" (Fin false 10000 (-2)) "RUB" 1 false (Fin false 0 (-2)).
Definition account_B : BankAccount :=
  mkAccount "B" (Fin false 0 (-2)) "USD" 2 false (Fin false 0 (-2)).
Definition store_AB : store :=
  mkStore {[ 1%positive := account_A; 2%positive := account_B ]}
          {[ 1%positive := []; 2%positive := [] ]}.

(** [CurrencyConverter({("RUB", "USD"): Decimal("0.01")})] *)
Definition conv_RUB_USD : Converter :=
  CurrencyConverter (Some {[ ("RUB", "USD") := Fin false 1 (-2) ]}).

(** A converter whose [convert] always raises. *)
Definition BadConv : Converter :=
  {| convert := fun _ _ _ => Raise ValueError |}.

(** The same with account A blocked. *)
Definition account_A_blocked : BankAccount :=
  mkAccount "A" (Fin false 10000 (-2)) "RUB" 1 true (Fin false 0 (-2)).
Definition store_blocked : store :=
  mkStore {[ 1%positive := account_A_blocked; 2%positive := account_B ]}
          {[ 1%positive := []; 2%positive := [] ]}.

Definition max_money : Decimal := Fin false 9999999999999999999999999999 (-2).

(** Alice after [deposit(1)] on an empty account. *)
Definition account_Alice : BankAccount :=
  mkAccount "Alice" (Fin false 100 (-2)) "RUB" 1 false (Fin false 0 (-2)).
Definition store_Alice : store :=
  mkStore {[ 1%positive := account_Alice ]} {[ 1%positive := ["+1.00 RUB"] ]}.

(** The bank of the tests: A holds 10.00 RUB, B holds 5.00 USD and is
    blocked; the converter knows USD->RUB only. *)
Definition account_A10 : BankAccount :=
  mkAccount "A" (Fin false 1000 (-2)) "RUB" 1 false (Fin false 0 (-2)).
Definition account_B5 : BankAccount :=
  mkAccount "B" (Fin false 500 (-2)) "USD" 2 true (Fin false 0 (-2)).
Definition store_bank : store :=
  mkStore {[ 1%positive := account_A10; 2%positive := account_B5 ]}
          {[ 1%positive := []; 2%positive := [] ]}.
Definition MyBank : Bank := mkBank "MyBank" [("A", 1%positive); ("B", 2%positive)].
Definition conv_USD_RUB : Converter :=
  CurrencyConverter (Some {[ ("USD", "RUB") := Fin false 100 0 ]}).

(** Two accounts of 90000000000000000000000000.00 RUB each. *)
Definition account_9e25 (owner : string) (l : positive) : BankAccount :=
  mkAccount owner (Fin false 9000000000000000000000000000 (-2)) "RUB" l false
    (Fin false 0 (-2)).
Definition store_9e25 : store :=
  mkStore {[ 1%positive := account_9e25 "A" 1; 2%positive := account_9e25 "B" 2 ]}
          {[ 1%positive := []; 2%positive := [] ]}.

(** An account holding the largest money value. *)
Definition account_full : BankAccount :=
  mkAccount "A" max_money "RUB" 1 false (Fin false 0 (-2)).
Definition store_full : store :=
  mkStore {[ 1%positive := account_full ]} {[ 1%positive := [] ]}.

End Examples.

(** ** Construction: [BankAccount.__init__], [Bank.__init__], [Bank.create_account] *)

Section Construction.
Local Open Scope string_scope.

Definition byte_in (c : ascii) (lo hi : N) : bool :=
  ((lo <=? N_of_ascii c) && (N_of_ascii c <=? hi))%N.

Definition byte_is (c : ascii) (n : N) : bool := (N_of_ascii c =? n)%N.

(** The three-byte UTF-8 encodings of the whitespace characters U+1680,
    U+2000..U+200A, U+2028, U+2029, U+202F, U+205F and U+3000. *)
Definition space3 (c d e : ascii) : bool :=
  (byte_is c 225 && byte_is d 154 && byte_is e 128)
  || (byte_is c 226 && byte_is d 128
      && (byte_in e 128 138 || byte_is e 168 || byte_is e 169 || byte_is e 175))
  || (byte_is c 226 && byte_is d 129 && byte_is e 159)
  || (byte_is c 227 && byte_is d 128 && byte_is e 128).

(** [not s.strip()]: the string holds nothing but whitespace.  A str is its
    UTF-8 encoding, and whitespace is what [str.isspace] accepts: U+0009 to
    U+000D, U+001C to U+0020, U+0085, U+00A0 and the characters of
    [space3]. *)
Fixpoint is_blank (s : string) : bool :=
  match s with
  | EmptyString => true
  | String c s1 =>
      if byte_in c 9 13 || byte_in c 28 32 then is_blank s1
      else
        match s1 with
        | EmptyString => false
        | String d s2 =>
            if byte_is c 194 && (byte_is d 133 || byte_is d 160)
            then is_blank s2
            else
              match s2 with
              | EmptyString => false
              | String e s3 => if space3 c d e then is_blank s3 else false
              end
        end
  end.

(** [[]]: a new, empty list object. *)
Definition list_new : M positive := fun st =>
  let l := fresh (dom (lists st)) in
  (Ok l, mkStore (accounts st) (<[l := []]> (lists st))).

(** A new account object. *)
Definition account_new (a : BankAccount) : M positive := fun st =>
  let self := fresh (dom (accounts st)) in
  (Ok self, mkStore (<[self := a]> (accounts st)) (lists st)).

(** [BankAccount(owner, balance, currency)]: evaluates to a reference to
    the new account, whose transaction list is a new list object. *)
Definition BankAccount__init__ (owner0 : PyVal) (balance0 : PyVal)
    (currency0 : string) : M positive :=
  match owner0 with
  | PyStr owner0 =>
      if is_blank owner0 then raise ValueError else
      if decide (currency0 ∉ SUPPORTED_CURRENCIES) then raise ValueError else
      balance0 ← lift (_to_decimal_money balance0);
      l ← list_new;
      account_new (mkAccount owner0 balance0 currency0 l false
                     (Fin false 0 (-2)))
  | _ => raise ValueError
  end.

(** [Bank(name)] *)
Definition Bank__init__ (name0 : PyVal) : result Bank :=
  match name0 with
  | PyStr name0 =>
      if is_blank name0 then Raise ValueError else Ok (mkBank name0 [])
  | _ => Raise ValueError
  end.

(** [owner in self.accounts]: the keys are strs, so only a str can be
    found; hashing a signaling NaN raises TypeError. *)
Definition owner_in (owner0 : PyVal) (accs : list (string * positive))
    : result bool :=
  match owner0 with
  | PyStr o => Ok (bool_decide (o ∈ accs.*1))
  | PyDecimal (NaN true) => Raise TypeError
  | _ => Ok false
  end.

(** [d[key] = value] on a dict with str keys: an existing key keeps its
    place, a new one goes last.  (A key that is not a str does not get
    this far: the constructor has refused it as an owner.) *)
Definition dict_set (key : PyVal) (value : positive)
    (d : list (string * positive)) : list (string * positive) :=
  match key with
  | PyStr k =>
      if bool_decide (k ∈ d.*1)
      then (fun kv => if decide (kv.1 = k) then (k, value) else kv) <$> d
      else d ++ [(k, value)]
  | _ => d
  end.

(** [Bank.create_account]: evaluates to the new account and the bank with
    its dict extended; when it raises, the bank is the one passed in. *)
Definition create_account (self : Bank) (owner0 : PyVal)
    (initial_balance : PyVal) (currency0 : string) : M (positive * Bank) :=
  taken ← lift (owner_in owner0 (bank_accounts self));
  if (taken : bool) then raise ValueError else
  account ← BankAccount__init__ owner0 initial_balance currency0;
  mret (account,
        mkBank (name self) (dict_set owner0 account (bank_accounts self))).

End Construction.

(** ** Invariants of the store *)

(** What no method changes about an account. *)
Definition same_identity (a a' : BankAccount) : Prop :=
  owner a' = owner a /\ transactions a' = transactions a /\
  is_blocked a' = is_blocked a /\ overdraft_limit a' = overdraft_limit a.

(** [evolves st st']: the same account and list objects exist, every
    account kept its owner, list, flag and limit, and every list kept its
    lines, possibly with more after them. *)
Definition evolves (st st' : store) : Prop :=
  (forall r,
     match accounts st !! r, accounts st' !! r with
     | Some a, Some a' => same_identity a a'
     | None, None => True
     | _, _ => False
     end) /\
  (forall l,
     match lists st !! l, lists st' !! l with
     | Some xs, Some ys => xs `prefix_of` ys
     | None, None => True
     | _, _ => False
     end).

(** Every outcome of [m], returned or raised, relates the stores by [R]. *)
Definition preserves {A} (R : store -> store -> Prop) (m : M A) : Prop :=
  forall st r st', m st = (r, st') -> R st st'.

(** Every balance is a money value. *)
Definition balances_money (st : store) : Prop :=
  forall r a, accounts st !! r = Some a -> money (balance a) = true.

(** Every account has its transaction list, and no two accounts share
    one. *)
Definition lists_owned (st : store) : Prop :=
  forall r a, accounts st !! r = Some a ->
    is_Some (lists st !! transactions a) /\
    forall r' a', accounts st !! r' = Some a' ->
      transactions a' = transactions a -> r' = r.

(** A bank's dict is in order: no owner is registered twice, and every
    entry refers to an account of the store whose owner is the entry's
    key. *)
Definition registered (st : store) (b : Bank) : Prop :=
  NoDup (bank_accounts b).*1 /\
  forall o r, (o, r) ∈ bank_accounts b ->
    exists a, accounts st !! r = Some a /\ owner a = o.

(** The entries [total_deposits] does not skip: those whose account is
    not blocked (and those that refer to no account, on which it fails). *)
Definition not_blocked (st : store) (r : positive) : bool :=
  match accounts st !! r with
  | Some a => negb (is_blocked a)
  | None => true
  end.

(** A converter that turns money into money. *)
Definition money_converter (conv : Converter) : Prop :=
  forall d f t c,
    money d = true -> convert conv (PyDecimal d) f t = Ok c -> money c = true.

(** A rate table without NaN entries. *)
Definition no_nan_rates (rates : gmap (string * string) Decimal) : Prop :=
  forall k r, rates !! k = Some r -> is_nan r = false.

(** * Facts about the decimal arithmetic *)

#[local] Arguments pow10 : simpl never.

Ltac ctx := unfold Etop, Etiny, Emax, Emin, prec in *.

(** Evaluate the closed exponents under [pow10]. *)
Ltac pow10_args :=
  repeat match goal with
  | |- context [pow10 ?k] =>
      lazymatch k with
      | Z0 => fail | Zpos _ => fail | Zneg _ => fail
      | _ => let k' := eval cbv in k in
             lazymatch k' with
             | Z0 => idtac | Zpos _ => idtac | Zneg _ => idtac
             end;
             change (pow10 k) with (pow10 k')
      end
  end.

Lemma pow10_pos k : (0 < pow10 k)%N.
Proof. unfold pow10. apply N.neq_0_lt_0, N.pow_nonzero. discriminate. Qed.

Lemma pow10_succ k : 0 <= k -> pow10 (k + 1) = (10 * pow10 k)%N.
Proof.
  intros Hk. unfold pow10.
  replace (Z.to_N (k + 1)) with (N.succ (Z.to_N k)) by lia.
  apply N.pow_succ_r'.
Qed.

Lemma pow10_add a b : 0 <= a -> 0 <= b -> pow10 (a + b) = (pow10 a * pow10 b)%N.
Proof.
  intros Ha Hb. unfold pow10. rewrite Z2N.inj_add by lia. apply N.pow_add_r.
Qed.

Lemma pow10_0 : pow10 0 = 1%N.
Proof. reflexivity. Qed.

Lemma pow10_1 : pow10 1 = 10%N.
Proof. reflexivity. Qed.

Lemma pow10_2 : pow10 2 = 100%N.
Proof. reflexivity. Qed.

Lemma pow10_28 : pow10 28 = (10 * pow10 27)%N.
Proof. change 28 with (27 + 1). by rewrite pow10_succ. Qed.

Lemma pow10_nonpos k : k <= 0 -> pow10 k = 1%N.
Proof. intros Hk. unfold pow10. replace (Z.to_N k) with 0%N by lia. reflexivity. Qed.

Lemma pow10_le_mono a b : a <= b -> (pow10 a <= pow10 b)%N.
Proof.
  intros Hab. unfold pow10. apply N.pow_le_mono_r; [discriminate | lia].
Qed.

Lemma log2_div10 n : (10 <= n)%N -> (N.log2 (n / 10) < N.log2 n)%N.
Proof.
  intros Hn.
  assert (Hle : (n / 10 <= N.div2 n)%N).
  { rewrite N.div2_div. apply N.div_le_compat_l. lia. }
  apply N.log2_le_mono in Hle.
  rewrite N.div2_spec, N.log2_shiftr in Hle.
  assert (0 < N.log2 n)%N.
  { apply N.log2_pos. lia. }
  lia.
Qed.

Lemma ndigits_aux_spec fuel : forall n k,
  (N.to_nat (N.log2 n) <= fuel)%nat -> 1 <= k ->
  (ndigits_aux fuel n <= k <-> (n < pow10 k)%N) /\ 1 <= ndigits_aux fuel n.
Proof.
  induction fuel as [|fuel IH]; intros n k Hfuel Hk; simpl.
  - assert (Hn : (n <= 1)%N).
    { destruct (N.le_gt_cases n 1) as [|Hgt]; [done|].
      apply N.log2_pos in Hgt. lia. }
    pose proof (pow10_le_mono 1 k Hk) as Hp. rewrite pow10_1 in Hp.
    split; [|lia]. split; intros; lia.
  - destruct (N.ltb_spec n 10) as [Hlt|Hge].
    + pose proof (pow10_le_mono 1 k Hk) as Hp. rewrite pow10_1 in Hp.
      split; [|lia]. split; intros; lia.
    + pose proof (log2_div10 n Hge) as Hlog.
      destruct (Z.eq_dec k 1) as [->|Hk1].
      * destruct (IH (n / 10)%N 1 ltac:(lia) ltac:(lia)) as [_ H1].
        rewrite pow10_1. split; [|lia]. split; intros; lia.
      * destruct (IH (n / 10)%N (k - 1) ltac:(lia) ltac:(lia)) as [Hiff H1].
        split; [|lia].
        replace k with ((k - 1) + 1) at 2 by lia.
        rewrite pow10_succ by lia.
        split; intros H.
        -- assert (Hq : (n / 10 < pow10 (k - 1))%N) by (apply Hiff; lia).
           pose proof (N.Div0.div_mod n 10) as Hdm.
           pose proof (N.mod_lt n 10 ltac:(discriminate)) as Hm. lia.
        -- assert (Hq : (n / 10 < pow10 (k - 1))%N).
           { apply N.Div0.div_lt_upper_bound. lia. }
           apply Hiff in Hq. lia.
Qed.

(** [len(str(n)) <= k] exactly when [n < 10^k]. *)
Lemma ndigits_le n k : 1 <= k -> ndigits n <= k <-> (n < pow10 k)%N.
Proof. intros Hk. apply ndigits_aux_spec; [lia | done]. Qed.

Lemma ndigits_gt n k : 1 <= k -> k < ndigits n <-> (pow10 k <= n)%N.
Proof. intros Hk. pose proof (ndigits_le n k Hk). lia. Qed.

Lemma ndigits_pos n : 1 <= ndigits n.
Proof. apply (ndigits_aux_spec _ n 1); lia. Qed.

(** [ndigits] is the length of the digit string [int_str] prints. *)
Lemma int_str_aux_length fuel : forall n acc,
  (N.to_nat (N.log2 n) <= fuel)%nat ->
  Z.of_nat (String.length (int_str_aux (S fuel) n acc))
  = ndigits_aux fuel n + Z.of_nat (String.length acc).
Proof.
  induction fuel as [|fuel IH]; intros n acc Hfuel.
  - assert (Hn : (n <= 1)%N).
    { destruct (N.le_gt_cases n 1) as [|Hgt]; [done|].
      apply N.log2_pos in Hgt. lia. }
    cbn [int_str_aux ndigits_aux]. destruct (N.ltb_spec n 10); [|lia].
    cbn [String.length]. lia.
  - cbn [ndigits_aux]. change (int_str_aux (S (S fuel)) n acc) with
      (if (n <? 10)%N then String (digit_char (n mod 10)) acc
       else int_str_aux (S fuel) (n / 10)%N (String (digit_char (n mod 10)) acc)).
    destruct (N.ltb_spec n 10) as [Hlt|Hge].
    + cbn [String.length]. lia.
    + rewrite IH by (pose proof (log2_div10 n Hge); lia).
      cbn [String.length]. lia.
Qed.

Lemma ndigits_int_str n : ndigits n = Z.of_nat (String.length (int_str n)).
Proof. unfold ndigits, int_str. rewrite int_str_aux_length by lia. cbn. lia. Qed.

#[local] Opaque pow10.

(** For a non-zero coefficient the bound holds at every [k]. *)
Lemma ndigits_le_nz n k : n <> 0%N -> ndigits n <= k <-> (n < pow10 k)%N.
Proof.
  intros Hn. destruct (Z_le_gt_dec 1 k) as [Hk|Hk].
  - by apply ndigits_le.
  - pose proof (ndigits_pos n). rewrite pow10_nonpos by lia. lia.
Qed.

(** [_fix] leaves alone what fits the precision and the exponent range. *)
Lemma fix_exact s c e :
  (c < pow10 28)%N -> Etiny <= e <= Etop -> _fix s c e = Ok (Fin s c e).
Proof.
  intros Hc He. unfold _fix.
  destruct (N.eqb_spec c 0) as [->|Hnz].
  - f_equal. f_equal. ctx. lia.
  - assert (Hnd : ndigits c <= 28) by (by apply ndigits_le).
    pose proof (ndigits_pos c).
    destruct (Z.gtb_spec (ndigits c + e - prec) Etop); [ctx; lia|].
    destruct (Z.ltb_spec (ndigits c + e - prec) Etiny).
    + destruct (Z.ltb_spec e Etiny); [ctx; lia | done].
    + destruct (Z.ltb_spec e (ndigits c + e - prec)); [ctx; lia | done].
Qed.

(** A 29-digit coefficient loses its last digit: the result has exponent
    [e + 1] and a coefficient between 10^27 and 2 * 10^27. *)
Lemma fix_29 s c e :
  (pow10 28 <= c < 2 * pow10 28)%N -> Etiny <= e < Etop ->
  exists q, _fix s c e = Ok (Fin s q (e + 1)) /\
            (pow10 27 <= q <= 2 * pow10 27)%N /\
            (10 * q - 5 <= c <= 10 * q + 5)%N.
Proof.
  intros [Hlo Hhi] He. unfold _fix.
  assert (Hnz : c <> 0%N) by (pose proof (pow10_pos 28); lia).
  assert (Hnd : ndigits c = 29).
  { assert (28 < ndigits c) by (by apply ndigits_gt).
    assert (ndigits c <= 29).
    { apply ndigits_le; [lia|]. change 29 with (28 + 1).
      rewrite pow10_succ by lia. lia. }
    lia. }
  destruct (N.eqb_spec c 0) as [|_]; [done|]. rewrite Hnd.
  destruct (Z.gtb_spec (29 + e - prec) Etop); [ctx; lia|].
  destruct (Z.ltb_spec (29 + e - prec) Etiny); [ctx; lia|].
  destruct (Z.ltb_spec e (29 + e - prec)); [|ctx; lia].
  unfold cut.
  destruct (Z.ltb_spec (29 + e - (29 + e - prec)) 0); [ctx; lia|].
  rewrite Hnd.
  replace (29 - (29 + e - (29 + e - prec))) with 1 by (ctx; lia).
  rewrite pow10_1.
  pose proof (N.Div0.div_mod c 10) as Hdm.
  pose proof (N.mod_lt c 10 ltac:(discriminate)) as Hm.
  rewrite pow10_28 in *.
  set (q := (c / 10)%N) in *. set (r := (c mod 10)%N) in *.
  assert (Hq : (pow10 27 <= q < 2 * pow10 27)%N) by lia.
  assert (Hup : round_up context_rounding q r 10 = true -> (5 <= r)%N).
  { unfold round_up, context_rounding. intros Hr.
    apply orb_true_iff in Hr as [Hr|Hr].
    - apply N.ltb_lt in Hr. lia.
    - apply andb_true_iff in Hr as [Hr _]. apply N.eqb_eq in Hr. lia. }
  assert (Hdn : round_up context_rounding q r 10 = false -> (r <= 5)%N).
  { unfold round_up, context_rounding. intros Hr.
    apply orb_false_iff in Hr as [Hr _]. apply N.ltb_ge in Hr. lia. }
  destruct (round_up context_rounding q r 10).
  - specialize (Hup eq_refl). clear Hdn.
    assert (Hq1 : ndigits (q + 1) <= 28).
    { apply ndigits_le; [lia|]. rewrite pow10_28.
      pose proof (pow10_pos 27). lia. }
    destruct (Z.gtb_spec (ndigits (q + 1)) prec); [ctx; lia|].
    destruct (Z.gtb_spec (29 + e - prec) Etop); [ctx; lia|].
    exists (q + 1)%N. split; [do 2 f_equal; ctx; lia|]. lia.
  - specialize (Hdn eq_refl). clear Hup.
    destruct (Z.gtb_spec (29 + e - prec) Etop); [ctx; lia|].
    exists q. split; [do 2 f_equal; ctx; lia|]. lia.
Qed.

(** A coefficient padded with [j] zeros stays under 10^28 exactly when it
    has at most [28 - j] digits. *)
Lemma padded_lt c j :
  c <> 0%N -> 0 <= j ->
  ndigits c + j <= 28 <-> (c * pow10 j < pow10 28)%N.
Proof.
  intros Hc Hj.
  pose proof (ndigits_le_nz c (28 - j) Hc) as Hnd.
  pose proof (pow10_pos j) as Hpj.
  cut ((c < pow10 (28 - j))%N <-> (c * pow10 j < pow10 28)%N).
  { intros Hcut. rewrite <- Hcut, <- Hnd. lia. }
  clear Hnd.
  destruct (Z_le_gt_dec j 28) as [Hle|Hgt].
  - replace 28 with ((28 - j) + j) at 2 by lia.
    rewrite pow10_add by lia. split; intros Hlt; nia.
  - rewrite (pow10_nonpos (28 - j)) by lia.
    pose proof (pow10_le_mono 28 j ltac:(lia)). split; intros Hlt; nia.
Qed.

Lemma ndigits_1 : ndigits 1 = 1.
Proof. reflexivity. Qed.

(** Cutting digits with ROUND_HALF_UP is rounding to the nearest with
    halves going up. *)
Lemma rescale_half_up c e :
  c <> 0%N -> e < -2 -> _rescale ROUND_HALF_UP c e (-2) = half_up c e.
Proof.
  intros Hc He. unfold _rescale, half_up.
  destruct (N.eqb_spec c 0) as [|_]; [done|].
  destruct (Z.geb_spec e (-2)); [lia|].
  set (P := pow10 (-2 - e)).
  assert (HP : (0 < P)%N) by apply pow10_pos.
  unfold cut. destruct (Z.ltb_spec (ndigits c + e - -2) 0) as [Hneg|Hpos].
  - rewrite ndigits_1, Z.sub_0_r, pow10_1. cbn.
    assert (Hsmall : (c < pow10 (-2 - e - 1))%N).
    { apply ndigits_le_nz; [done | lia]. }
    assert (HPe : P = (10 * pow10 (-2 - e - 1))%N).
    { unfold P. replace (-2 - e) with ((-2 - e - 1) + 1) at 1 by lia.
      apply pow10_succ. pose proof (ndigits_pos c). lia. }
    symmetry. apply N.div_small. lia.
  - replace (ndigits c - (ndigits c + e - -2)) with (-2 - e) by lia.
    fold P.
    pose proof (N.Div0.div_mod c P) as Hdm.
    pose proof (N.mod_lt c P ltac:(lia)) as Hm.
    set (q := (c / P)%N) in *. set (r := (c mod P)%N) in *.
    unfold round_up. destruct (N.leb_spec P (2 * r)).
    + apply (N.div_unique _ _ _ (2 * r - P)); lia.
    + apply (N.div_unique _ _ _ (2 * r + P)); lia.
Qed.

(** What [quantize(_MONEY_Q, ROUND_HALF_UP)] does to a finite number: the
    coefficient rounded to hundredths, provided it fits 28 digits. *)
Lemma quantize_fin s c e :
  quantize (Fin s c e) _MONEY_Q ROUND_HALF_UP =
  if (half_up c e <? pow10 28)%N then Ok (Fin s (half_up c e) (-2))
  else Raise InvalidOperation.
Proof.
  unfold quantize, _MONEY_Q. cbn [check_nans is_snan is_nan orb mbind result_bind].
  replace (negb ((Etiny <=? -2) && (-2 <=? Emax))) with false by reflexivity.
  assert (Hrange : Etiny <= -2 <= Etop) by (ctx; lia).
  destruct (N.eqb_spec c 0) as [->|Hc].
  { assert (Hz : half_up 0 e = 0%N).
    { unfold half_up. destruct (e >=? -2); [done|].
      cbn. apply N.div_small. pose proof (pow10_pos (-2 - e)). lia. }
    rewrite Hz. pose proof (pow10_pos 28).
    destruct (N.ltb_spec 0 (pow10 28)); [|lia].
    by apply fix_exact. }
  pose proof (ndigits_pos c) as Hnd1.
  assert (Hfix : forall c', (c' < pow10 28)%N ->
            (if -2 + ndigits c' - 1 >? Emax then Raise InvalidOperation
             else if ndigits c' >? prec then Raise InvalidOperation
             else _fix s c' (-2)) = Ok (Fin s c' (-2))).
  { intros c' Hc'. assert (ndigits c' <= 28) by (by apply ndigits_le).
    destruct (Z.gtb_spec (-2 + ndigits c' - 1) Emax); [ctx; lia|].
    destruct (Z.gtb_spec (ndigits c') prec); [ctx; lia|].
    by apply fix_exact. }
  destruct (Z_lt_ge_dec e (-2)) as [He|He].
  - (* digits are dropped *)
    rewrite rescale_half_up by done.
    assert (Hq : ndigits c + e + 2 <= 28 <-> (c / pow10 (-2 - e) < pow10 28)%N).
    { pose proof (ndigits_le_nz c (28 + (-2 - e)) Hc) as Hnd.
      rewrite pow10_add in Hnd by lia.
      pose proof (pow10_pos (-2 - e)).
      pose proof (N.Div0.div_mod c (pow10 (-2 - e))) as Hdm.
      pose proof (N.mod_lt c (pow10 (-2 - e)) ltac:(lia)) as Hm.
      split; intros Hx.
      + apply N.Div0.div_lt_upper_bound. apply proj1 in Hnd. lia.
      + apply proj2 in Hnd. cut (c < pow10 28 * pow10 (-2 - e))%N; [lia | nia]. }
    assert (Hge : (c / pow10 (-2 - e) <= half_up c e)%N).
    { unfold half_up. destruct (Z.geb_spec e (-2)); [lia|].
      pose proof (pow10_pos (-2 - e)).
      apply N.div_le_lower_bound; [lia|].
      pose proof (N.Div0.mul_div_le c (pow10 (-2 - e))). lia. }
    destruct (Z.gtb_spec (e + ndigits c - 1) Emax) as [Hadj|Hadj].
    { destruct (N.ltb_spec (half_up c e) (pow10 28)); [|done].
      ctx. apply proj2 in Hq. lia. }
    destruct (Z.gtb_spec (e + ndigits c - 1 - -2 + 1) prec) as [Hdig|Hdig].
    { destruct (N.ltb_spec (half_up c e) (pow10 28)); [|done].
      ctx. apply proj2 in Hq. lia. }
    destruct (N.ltb_spec (half_up c e) (pow10 28)) as [Hlt|Hge'].
    + by apply Hfix.
    + assert (Hnd' : 28 < ndigits (half_up c e)) by (by apply ndigits_gt).
      destruct (Z.gtb_spec (-2 + ndigits (half_up c e) - 1) Emax); [done|].
      destruct (Z.gtb_spec (ndigits (half_up c e)) prec); [done|ctx; lia].
  - (* zeros are appended *)
    assert (Hres : _rescale ROUND_HALF_UP c e (-2) = half_up c e).
    { unfold _rescale, half_up. destruct (N.eqb_spec c 0); [done|].
      destruct (Z.geb_spec e (-2)); [|lia].
      by replace (e - -2) with (e + 2) by lia. }
    rewrite Hres.
    assert (Hhu : half_up c e = (c * pow10 (e + 2))%N).
    { unfold half_up. destruct (Z.geb_spec e (-2)); [done|lia]. }
    pose proof (padded_lt c (e + 2) Hc ltac:(lia)) as Hpad.
    rewrite <- Hhu in Hpad.
    destruct (Z.gtb_spec (e + ndigits c - 1) Emax) as [Hadj|Hadj].
    { destruct (N.ltb_spec (half_up c e) (pow10 28)); [|done].
      ctx. apply proj2 in Hpad. lia. }
    destruct (Z.gtb_spec (e + ndigits c - 1 - -2 + 1) prec) as [Hdig|Hdig].
    { destruct (N.ltb_spec (half_up c e) (pow10 28)); [|done].
      ctx. apply proj2 in Hpad. lia. }
    destruct (N.ltb_spec (half_up c e) (pow10 28)) as [Hlt|Hge'].
    + by apply Hfix.
    + ctx. apply proj1 in Hpad. lia.
Qed.

(** ** Money arithmetic *)

Lemma money_inv d :
  money d = true -> exists s c, d = Fin s c (-2) /\ (c < pow10 28)%N.
Proof.
  destruct d as [s c e| |]; simpl; try done.
  intros [He Hc]%andb_true_iff. apply Z.eqb_eq in He. apply N.ltb_lt in Hc.
  subst. eauto.
Qed.

Lemma money_intro s c : (c < pow10 28)%N -> money (Fin s c (-2)) = true.
Proof. intros Hc. simpl. by apply N.ltb_lt. Qed.

Lemma half_up_m2 c : half_up c (-2) = c.
Proof. unfold half_up. cbn. change (-2 + 2) with 0. rewrite pow10_0. lia. Qed.

(** Normalizing a money value changes nothing. *)
Lemma quantize_money d : money d = true -> money_q d = Ok d.
Proof.
  intros (s & c & -> & Hc)%money_inv. unfold money_q.
  rewrite quantize_fin, half_up_m2.
  destruct (N.ltb_spec c (pow10 28)); [done | lia].
Qed.

(** Whatever normalization returns is a money value, or the quiet NaN it
    was given. *)
Lemma quantize_result d r :
  money_q d = Ok r -> money r = true \/ (r = NaN false /\ d = NaN false).
Proof.
  unfold money_q. destruct d as [s c e|s|[]].
  - rewrite quantize_fin. destruct (N.ltb_spec (half_up c e) (pow10 28)); [|done].
    intros [= <-]. left. by apply money_intro.
  - done.
  - done.
  - intros [= <-]. by right.
Qed.

Lemma fix_sum s c :
  (c < 2 * pow10 28)%N -> sum_result (sval s c) (_fix s c (-2)).
Proof.
  intros Hc. assert (Habs : Z.abs (sval s c) = Z.of_N c).
  { unfold sval. destruct s; lia. }
  split; rewrite Habs; intros Hz.
  - exists (Fin s c (-2)). split; [|split].
    + apply fix_exact; [lia | ctx; lia].
    + apply money_intro. lia.
    + done.
  - destruct (fix_29 s c (-2)) as (q & Hq & Hb & Hr); [lia | ctx; lia |].
    exists q. split; [|split; [done | lia]].
    rewrite Hq. do 2 f_equal. unfold sval.
    pose proof (pow10_pos 28). destruct s; lia.
Qed.

Lemma add_money a b :
  money a = true -> money b = true ->
  sum_result (cents a + cents b) (add a b).
Proof.
  intros (s1 & c1 & -> & H1)%money_inv (s2 & c2 & -> & H2)%money_inv.
  unfold add, add_fin. cbn [check_nans is_snan is_nan orb mbind result_bind cents].
  replace (Z.min (-2) (-2)) with (-2) by reflexivity.
  replace (Z.max (-2) (-2 - prec - 1)) with (-2) by reflexivity.
  destruct (N.eqb_spec c1 0) as [->|Hc1], (N.eqb_spec c2 0) as [->|Hc2];
    cbn [andb].
  - replace (sval s1 0 + sval s2 0) with (sval (s1 && s2) 0)
      by (by destruct s1, s2).
    apply fix_sum. pose proof (pow10_pos 28). lia.
  - replace (sval s1 0 + sval s2 c2) with (sval s2 c2) by (by destruct s1).
    unfold _rescale. destruct (N.eqb_spec c2 0); [done|].
    cbn. change (-2 - -2) with 0. rewrite pow10_0, N.mul_1_r. apply fix_sum. lia.
  - replace (sval s1 c1 + sval s2 0) with (sval s1 c1)
      by (destruct s2; unfold sval; lia).
    unfold _rescale. destruct (N.eqb_spec c1 0); [done|].
    cbn. change (-2 - -2) with 0. rewrite pow10_0, N.mul_1_r. apply fix_sum. lia.
  - unfold _normalize. cbn [Z.ltb Z.compare].
    assert (ndigits c1 <= 28) by (by apply ndigits_le).
    pose proof (ndigits_pos c2).
    destruct (Z.ltb_spec (ndigits c2 + -2 - 1)
                (-2 + Z.min (-1) (ndigits c1 - prec - 2))); [ctx; lia|].
    cbn. change (-2 - -2) with 0. rewrite pow10_0, N.mul_1_r.
    destruct s1, s2; cbn [Bool.eqb negb].
    + replace (sval true c1 + sval true c2) with (sval true (c1 + c2))
        by (unfold sval; lia).
      apply fix_sum. lia.
    + destruct (N.eqb_spec c1 c2) as [->|Hne].
      * replace (sval true c2 + sval false c2) with (sval false 0)
          by (unfold sval; lia).
        apply fix_sum. pose proof (pow10_pos 28). lia.
      * destruct (N.ltb_spec c1 c2).
        -- replace (sval true c1 + sval false c2) with (sval false (c2 - c1))
             by (unfold sval; lia).
           apply fix_sum. lia.
        -- replace (sval true c1 + sval false c2) with (sval true (c1 - c2))
             by (unfold sval; lia).
           apply fix_sum. lia.
    + destruct (N.eqb_spec c1 c2) as [->|Hne].
      * replace (sval false c2 + sval true c2) with (sval false 0)
          by (unfold sval; lia).
        apply fix_sum. pose proof (pow10_pos 28). lia.
      * destruct (N.ltb_spec c1 c2).
        -- replace (sval false c1 + sval true c2) with (sval true (c2 - c1))
             by (unfold sval; lia).
           apply fix_sum. lia.
        -- replace (sval false c1 + sval true c2) with (sval false (c1 - c2))
             by (unfold sval; lia).
           apply fix_sum. lia.
    + replace (sval false c1 + sval false c2) with (sval false (c1 + c2))
        by (unfold sval; lia).
      apply fix_sum. lia.
Qed.



(** Comparisons of money values compare their hundredths. *)
Lemma cmp_money a b :
  money a = true -> money b = true -> _cmp a b = (cents a ?= cents b).
Proof.
  intros (s1 & c1 & -> & H1)%money_inv (s2 & c2 & -> & H2)%money_inv.
  cbn. pow10_args. by rewrite pow10_0, !N.mul_1_r.
Qed.


Lemma le_zero a :
  money a = true -> le a (of_int 0) = Ok (cents a <=? 0).
Proof.
  intros (s & c & -> & Hc)%money_inv. unfold le, compare, of_int.
  cbn. pow10_args.
  rewrite pow10_0, N.mul_1_r, N.mul_0_l. unfold Z.leb. cbn.
  by destruct (sval s c ?= 0).
Qed.

Lemma gt_money a b :
  money a = true -> money b = true -> gt a b = Ok (cents a >? cents b).
Proof.
  intros Ha Hb. unfold gt, compare.
  pose proof Ha as (s1 & c1 & -> & H1)%money_inv.
  pose proof Hb as (s2 & c2 & -> & H2)%money_inv.
  cbn [is_nan orb mbind result_bind]. rewrite cmp_money by done.
  unfold Z.gtb. by destruct (_ ?= _).
Qed.


(** * Running the methods *)

(** One step of a method body at a time. *)
Lemma bind_lift {A B} (r : result A) (k : A -> M B) st :
  (lift r ≫= k) st = match r with Ok a => k a st | Raise e => (Raise e, st) end.
Proof. by destruct r. Qed.

Lemma bind_raise {A B} e (k : A -> M B) st : (raise e ≫= k) st = (Raise e, st).
Proof. done. Qed.

Lemma bind_get {B} self a (k : BankAccount -> M B) st :
  accounts st !! self = Some a -> (get_account self ≫= k) st = k a st.
Proof. intros H. unfold mbind, M_bind, get_account. by rewrite H. Qed.

Lemma bind_get_None {B} self (k : BankAccount -> M B) st :
  accounts st !! self = None ->
  (get_account self ≫= k) st = (Raise AttributeError, st).
Proof. intros H. unfold mbind, M_bind, get_account. by rewrite H. Qed.

Lemma bind_update {B} self a f (k : unit -> M B) st :
  accounts st !! self = Some a ->
  (update_account self f ≫= k) st
  = k tt (mkStore (<[self := f a]> (accounts st)) (lists st)).
Proof. intros H. unfold mbind, M_bind, update_account. by rewrite H. Qed.

Lemma bind_append {B} l xs line (k : unit -> M B) st :
  lists st !! l = Some xs ->
  (list_append l line ≫= k) st
  = k tt (mkStore (accounts st) (<[l := xs ++ [line]]> (lists st))).
Proof. intros H. unfold mbind, M_bind, list_append. by rewrite H. Qed.

Lemma bind_append_None {B} l line (k : unit -> M B) st :
  lists st !! l = None ->
  (list_append l line ≫= k) st = (Raise AttributeError, st).
Proof. intros H. unfold mbind, M_bind, list_append. by rewrite H. Qed.

Lemma bind_isinstance {B} r (k : bool -> M B) st :
  (isinstance_BankAccount r ≫= k) st
  = k (bool_decide (is_Some (accounts st !! r))) st.
Proof. done. Qed.

(** * The claims *)

(** ** Blocked accounts *)

(** C10. On a blocked account [withdraw] and [transfer] test the blocked
    flag before they look at anything else: whatever the amount (a string,
    a bool, zero, a negative number), whatever the target and converter,
    the call raises PermissionError and the store is left as it was. *)
Theorem blocked_checked_first st self a :
  accounts st !! self = Some a -> is_blocked a = true ->
  (forall amount, withdraw self amount st = (Raise PermissionError, st)) /\
  (forall target amount conv,
     transfer self target amount conv st = (Raise PermissionError, st)).
Proof.
  intros Hself Hblocked. split; intros.
  - unfold withdraw. rewrite (bind_get _ _ _ _ Hself). by rewrite Hblocked.
  - unfold transfer. rewrite (bind_get _ _ _ _ Hself). by rewrite Hblocked.
Qed.

(** [withdraw("ten")] and [transfer(None, True)] on the blocked account. *)
Lemma blocked_checked_first_witness :
  withdraw 1 (PyStr "ten") store_blocked = (Raise PermissionError, store_blocked)
  /\ transfer 1 None (PyBool true) None store_blocked
     = (Raise PermissionError, store_blocked).
Proof.
  destruct (blocked_checked_first store_blocked 1 account_A_blocked)
    as [Hw Ht]; [done | done |].
  split; [apply Hw | apply Ht].
Defined.

(** ** Transfers *)

(** C1. A transfer whose currency conversion fails raises and leaves the
    whole store, hence both accounts' balances and transaction lists, as it
    was.  The sender and the target may be the same object. *)
Theorem transfer_atomic st self target a t amount conv amount_d e :
  accounts st !! self = Some a ->
  accounts st !! target = Some t ->
  _to_decimal_money amount = Ok amount_d ->
  convert (converter_or_default conv) (PyDecimal amount_d)
    (currency a) (currency t) = Raise e ->
  exists e', transfer self (Some target) amount conv st = (Raise e', st).
Proof.
  intros Hself Htarget Hnorm Hconv. unfold transfer.
  rewrite (bind_get _ _ _ _ Hself).
  destruct (is_blocked a); [by eexists|].
  rewrite bind_isinstance, Htarget, bool_decide_true by eauto. cbn [negb].
  rewrite bind_lift, Hnorm, bind_lift.
  destruct (le amount_d (of_int 0)) as [[]|]; [by eexists| |by eexists].
  rewrite (bind_get _ _ _ _ Hself), bind_lift.
  destruct (_ ≫= _) as [[]|]; [by eexists| |by eexists].
  rewrite (bind_get _ _ _ _ Hself), (bind_get _ _ _ _ Htarget).
  rewrite bind_lift, Hconv. by eexists.
Qed.

(** The test with the converter that always raises. *)
Lemma transfer_atomic_witness :
  exists e,
    transfer 1 (Some 2%positive) (PyInt 10) (Some BadConv) store_AB
    = (Raise e, store_AB).
Proof.
  apply (transfer_atomic store_AB 1 2 account_A account_B (PyInt 10)
           (Some BadConv) (Fin false 1000 (-2)) ValueError); by vm_compute.
Defined.

(** A sum or difference of money values followed by normalization: exact
    when the result fits 28 digits, InvalidOperation when it does not. *)
Lemma sum_quantize_fits z r :
  sum_result z r -> Z.abs z < Z.of_N (pow10 28) ->
  exists nb, r ≫= money_q = Ok nb /\ money nb = true /\ cents nb = z.
Proof.
  intros [Hfit _] Hz. destruct (Hfit Hz) as (d & -> & Hd & Hc).
  exists d. cbn [mbind result_bind]. by rewrite quantize_money.
Qed.



(** A normalized amount that passed the test [amount_d <= 0] is a positive
    money value. *)
Lemma positive_amount amount amount_d :
  _to_decimal_money amount = Ok amount_d ->
  le amount_d (of_int 0) = Ok false ->
  money amount_d = true /\ 0 < cents amount_d.
Proof.
  intros Hnorm Hle.
  assert (Hq : exists d, money_q d = Ok amount_d).
  { destruct amount as [b|n|r|d|s|]; try done;
      [exists (of_int n) | exists r | exists d]; exact Hnorm. }
  destruct Hq as (d & [Hm|[-> _]]%quantize_result); [|done].
  split; [done|]. rewrite le_zero in Hle by done.
  injection Hle as Hle. by apply Z.leb_gt.
Qed.



(** ** Withdrawals *)





(** ** Money normalization *)

(** [half_up] is rounding to the nearest hundredth with ties away from
    zero: the result [h] satisfies c/P - 1/2 < h <= c/P + 1/2 for
    P = 10^k dropped digits. *)
Lemma half_up_nearest c e :
  e < -2 ->
  let P := Z.of_N (pow10 (-2 - e)) in
  let h := Z.of_N (half_up c e) in
  2 * Z.of_N c - P < 2 * h * P <= 2 * Z.of_N c + P.
Proof.
  intros He P h. unfold h, half_up.
  destruct (Z.geb_spec e (-2)); [lia|].
  pose proof (pow10_pos (-2 - e)) as HP. fold P in HP.
  rewrite N2Z.inj_div, N2Z.inj_add, !N2Z.inj_mul. fold P.
  change (Z.of_N 2) with 2.
  pose proof (Z.div_mod (2 * Z.of_N c + P) (2 * P) ltac:(lia)) as Hdm.
  pose proof (Z.mod_pos_bound (2 * Z.of_N c + P) (2 * P) ltac:(lia)) as Hm.
  nia.
Qed.

(** C4, as the code has it.  A bool is refused with TypeError.  An int, a
    float or a Decimal that is finite and whose value rounded to hundredths
    fits the 28 digits of the context is returned with exponent -2, rounded
    to the nearest hundredth with halves away from zero. *)
Theorem normalize_spec :
  (forall b, _to_decimal_money (PyBool b) = Raise TypeError) /\
  (forall v s c e,
     finite_input v = Some (s, c, e) ->
     (half_up c e < pow10 28)%N ->
     _to_decimal_money v = Ok (Fin s (half_up c e) (-2)) /\
     money (Fin s (half_up c e) (-2)) = true /\
     (-2 <= e -> half_up c e = (c * pow10 (e + 2))%N) /\
     (e < -2 ->
      let P := Z.of_N (pow10 (-2 - e)) in
      2 * Z.of_N c - P < 2 * Z.of_N (half_up c e) * P <= 2 * Z.of_N c + P)).
Proof.
  split; [done|]. intros v s c e Hv Hfit.
  assert (Hq : _to_decimal_money v = money_q (Fin s c e)).
  { destruct v as [b|n|[]|[]|x|]; try done; by injection Hv as <- <- <-. }
  rewrite Hq. unfold money_q. rewrite quantize_fin.
  destruct (N.ltb_spec (half_up c e) (pow10 28)); [|lia].
  split; [done|]. split; [by apply money_intro|]. split.
  - intros He. unfold half_up. by destruct (Z.geb_spec e (-2)); [|lia].
  - apply half_up_nearest.
Qed.

(** [normalize(1.005) == 1.01] *)
Lemma normalize_spec_witness :
  _to_decimal_money (PyFloat (Fin false 1005 (-3))) = Ok (Fin false 101 (-2)).
Proof.
  destruct normalize_spec as [_ H].
  destruct (H (PyFloat (Fin false 1005 (-3))) false 1005%N (-3))
    as [Hr _]; [done | by vm_compute |].
  rewrite Hr. by vm_compute.
Defined.

(** C4 fails as stated on large inputs: [10**26] needs 29 digits at two
    decimal places and [quantize] raises InvalidOperation. *)
Lemma normalize_large_int_counterexample :
  _to_decimal_money (PyInt (10 ^ 26)) = Raise InvalidOperation.
Proof. by vm_compute. Qed.

(** Infinities and NaNs are floats and Decimals too. *)
Lemma normalize_special_values :
  _to_decimal_money (PyFloat (Inf false)) = Raise InvalidOperation /\
  _to_decimal_money (PyFloat (NaN false)) = Ok (NaN false).
Proof. done. Qed.

(** ** Currency conversion *)



(** What the arithmetic can raise. *)
Lemma fix_raises s c e x : _fix s c e = Raise x -> x = Overflow.
Proof.
  unfold _fix. repeat case_match; congruence.
Qed.

Lemma quantize_raises d q m x :
  quantize d q m = Raise x -> x = InvalidOperation \/ x = Overflow.
Proof.
  unfold quantize, check_nans. cbn [mbind result_bind].
  repeat case_match; try congruence; cbn [mbind result_bind];
    repeat case_match; intros Hx;
    first [ left; congruence
          | right; exact (fix_raises _ _ _ _ Hx)
          | congruence ].
Qed.

Lemma mul_raises a b x :
  mul a b = Raise x -> x = InvalidOperation \/ x = Overflow.
Proof.
  unfold mul, check_nans. cbn [mbind result_bind].
  repeat case_match; try congruence; cbn [mbind result_bind];
    repeat case_match; intros Hx;
    first [ left; congruence
          | right; exact (fix_raises _ _ _ _ Hx)
          | congruence ].
Qed.

(** C6, as the code has it.  With supported currency codes, [convert]
    raises TypeError exactly for the amounts that are not Decimal objects
    (bool, int, float, str, None); a Decimal is accepted whatever its
    number of fractional digits and is re-quantized. *)
Theorem convert_type_check rates amount from_currency to_currency :
  from_currency ∈ SUPPORTED_CURRENCIES ->
  to_currency ∈ SUPPORTED_CURRENCIES ->
  (is_Decimal amount = false ->
   CurrencyConverter_convert rates amount from_currency to_currency
   = Raise TypeError) /\
  (forall d, amount = PyDecimal d ->
   CurrencyConverter_convert rates amount from_currency to_currency
   = (normalized ← quantize d _MONEY_Q ROUND_HALF_UP;
      CurrencyConverter_convert rates (PyDecimal normalized)
        from_currency to_currency) /\
   CurrencyConverter_convert rates amount from_currency to_currency
   <> Raise TypeError).
Proof.
  intros Hfrom Hto. unfold CurrencyConverter_convert.
  destruct (decide (from_currency ∉ _)); [done|].
  destruct (decide (to_currency ∉ _)); [done|].
  split; [by destruct amount|]. intros d ->.
  destruct (quantize d _MONEY_Q ROUND_HALF_UP) as [q|x] eqn:Hq;
    cbn [mbind result_bind].
  2:{ split; [done|]. intros [= ->].
      by destruct (quantize_raises _ _ _ _ Hq). }
  assert (Hqq : quantize q _MONEY_Q ROUND_HALF_UP = Ok q).
  { apply quantize_result in Hq as [Hm|[-> _]]; [|done].
    by apply quantize_money. }
  rewrite Hqq. cbn [mbind result_bind]. split; [done|].
  destruct (decide (from_currency = to_currency)); [done|].
  destruct (rates !! _) as [rate|]; [|done].
  destruct (mul q rate) as [p|x] eqn:Hmul; cbn [mbind result_bind].
  - destruct (quantize p _ _) as [|x] eqn:Hp; [done|].
    intros [= ->]. by destruct (quantize_raises _ _ _ _ Hp).
  - intros [= ->]. by destruct (mul_raises _ _ _ Hmul).
Qed.

Lemma convert_type_check_witness :
  CurrencyConverter_convert default_rates (PyInt 1) "USD" "RUB"
  = Raise TypeError.
Proof.
  apply (convert_type_check default_rates (PyInt 1) "USD" "RUB");
    by vm_compute.
Defined.

(** C6 fails as stated: [Decimal("1.005")] is not a normalized money value,
    and [convert] takes it and rounds it. *)
Lemma convert_renormalizes_counterexample :
  CurrencyConverter_convert default_rates (PyDecimal (Fin false 1005 (-3)))
    "USD" "USD" = Ok (Fin false 101 (-2)).
Proof. by vm_compute. Qed.

(** ** Deposits *)

(** C7, as the code has it.  On any account, blocked or not, with a money
    balance, [deposit] of an amount that normalizes to a money value raises
    ValueError when that value is not positive or exceeds 1000000.00;
    otherwise, provided the new balance still fits the 28 digits of the
    decimal context, it adds the amount to the balance, appends the line
    "+amount currency" and returns the new balance. *)
Theorem deposit_spec st self a log amount amount_d :
  accounts st !! self = Some a ->
  lists st !! transactions a = Some log ->
  money (balance a) = true ->
  _to_decimal_money amount = Ok amount_d ->
  money amount_d = true ->
  (cents amount_d <= 0 \/ 100000000 < cents amount_d ->
   deposit self amount st = (Raise ValueError, st)) /\
  (0 < cents amount_d <= 100000000 ->
   Z.abs (cents (balance a) + cents amount_d) < Z.of_N (pow10 28) ->
   exists new_balance,
     money new_balance = true /\
     cents new_balance = cents (balance a) + cents amount_d /\
     deposit self amount st
     = (Ok new_balance,
        mkStore (<[self := set_balance new_balance a]> (accounts st))
          (<[transactions a :=
               log ++ [("+" +:+ __str__ amount_d +:+ " " +:+ currency a)%string]]>
             (lists st)))).
Proof.
  intros Hself Hlog Hbal Hnorm Hamt.
  assert (Hmax : money MAX_DEPOSIT = true) by (by vm_compute).
  assert (Hstart : deposit self amount st =
    if cents amount_d <=? 0 then (Raise ValueError, st)
    else if cents amount_d >? 100000000 then (Raise ValueError, st)
    else (new_balance ← lift (add (balance a) amount_d ≫= money_q);
          update_account self (set_balance new_balance);;
          a ← get_account self;
          list_append (transactions a)
            ("+" +:+ __str__ amount_d +:+ " " +:+ currency a)%string;;
          a ← get_account self;
          mret (balance a)) st).
  { unfold deposit. rewrite bind_lift, Hnorm, bind_lift, le_zero by done.
    destruct (cents amount_d <=? 0); [done|].
    rewrite (bind_get _ _ _ _ Hself), bind_lift, gt_money by done.
    change (cents MAX_DEPOSIT) with 100000000.
    destruct (cents amount_d >? 100000000); [done|].
    by rewrite (bind_get _ _ _ _ Hself). }
  rewrite Hstart. clear Hstart. split.
  - intros [Hle|Hgt].
    + by destruct (Z.leb_spec (cents amount_d) 0); [|lia].
    + destruct (Z.leb_spec (cents amount_d) 0); [done|].
      by destruct (Z.gtb_spec (cents amount_d) 100000000); [|lia].
  - intros [Hpos Hcap] Hfit.
    destruct (Z.leb_spec (cents amount_d) 0); [lia|].
    destruct (Z.gtb_spec (cents amount_d) 100000000); [lia|].
    destruct (sum_quantize_fits _ _ (add_money _ _ Hbal Hamt) Hfit)
      as (new_balance & Hadd & Hnew_m & Hnew_c).
    exists new_balance. split; [done|]. split; [done|].
    rewrite bind_lift, Hadd, (bind_update _ _ _ _ _ Hself).
    set (st1 := mkStore _ _).
    assert (Hself1 : accounts st1 !! self = Some (set_balance new_balance a))
      by apply lookup_insert_eq.
    assert (Hlog1 : lists st1 !! transactions a = Some log) by done.
    rewrite (bind_get _ _ _ _ Hself1).
    cbn [set_balance transactions currency].
    rewrite (bind_append _ _ _ _ _ Hlog1).
    set (st2 := mkStore _ _).
    assert (Hself2 : accounts st2 !! self = Some (set_balance new_balance a))
      by apply lookup_insert_eq.
    by rewrite (bind_get _ _ _ _ Hself2).
Qed.

(** A deposit of 10 on the blocked 100.00 RUB account goes through. *)
Lemma deposit_spec_witness :
  exists new_balance,
    cents new_balance = 11000 /\
    deposit 1 (PyInt 10) store_blocked
    = (Ok new_balance,
       mkStore (<[1%positive := set_balance new_balance account_A_blocked]>
                  (accounts store_blocked))
         (<[1%positive := ["+10.00 RUB"%string]]> (lists store_blocked))).
Proof.
  destruct (deposit_spec store_blocked 1 account_A_blocked [] (PyInt 10)
              (Fin false 1000 (-2))) as [_ H]; [by vm_compute..|].
  destruct H as (nb & _ & Hc & Hrun); [by vm_compute.. |].
  exists nb. split; [exact Hc|]. rewrite Hrun. f_equal.
Defined.

(** C7 fails as stated at the edge of the context: on an account holding
    99999999999999999999999999.99 a deposit of 1 is within the ceiling,
    and the new balance needs 29 digits: InvalidOperation, not a new
    balance. *)
Lemma deposit_overflow_counterexample :
  deposit 1 (PyInt 1) store_full = (Raise InvalidOperation, store_full).
Proof. by vm_compute. Qed.

(** ** Statements *)

(** C9. [get_statement] returns the owner, currency, balance and blocked
    flag of the account together with a new list object holding the same
    lines as the account's transaction list.  The new object is distinct
    from every list that existed before, so whatever is done to it
    afterwards, the account and its transaction list stay as they were. *)
Theorem get_statement_copy st self a log :
  accounts st !! self = Some a ->
  lists st !! transactions a = Some log ->
  exists copy st',
    get_statement self st
    = (Ok (mkStatement (owner a) (currency a) (balance a) copy (is_blocked a)),
       st') /\
    lists st !! copy = None /\
    copy <> transactions a /\
    lists st' !! copy = Some log /\
    accounts st' = accounts st /\
    (forall l, l <> copy -> lists st' !! l = lists st !! l) /\
    forall f, exists st'',
      list_mutate copy f st' = (Ok tt, st'') /\
      lists st'' !! copy = Some (f log) /\
      accounts st'' !! self = Some a /\
      lists st'' !! transactions a = Some log /\
      (forall l, l <> copy -> lists st'' !! l = lists st !! l).
Proof.
  intros Hself Hlog.
  set (copy := fresh (dom (lists st))).
  assert (Hfresh : lists st !! copy = None).
  { apply not_elem_of_dom, is_fresh. }
  assert (Hne : copy <> transactions a) by congruence.
  exists copy, (mkStore (accounts st) (<[copy := log]> (lists st))).
  split; [|split; [done|split; [done|split; [|split; [done|split]]]]].
  - unfold get_statement. rewrite (bind_get _ _ _ _ Hself).
    unfold mbind, M_bind, list_copy. by rewrite Hlog.
  - apply lookup_insert_eq.
  - intros l Hl. cbn. by rewrite lookup_insert_ne.
  - intros f.
    exists (mkStore (accounts st) (<[copy := f log]> (<[copy := log]> (lists st)))).
    split; [|split; [|split; [done|split]]].
    + unfold list_mutate. cbn. by rewrite lookup_insert_eq.
    + apply lookup_insert_eq.
    + cbn. by rewrite !lookup_insert_ne.
    + intros l Hl. cbn. by rewrite !lookup_insert_ne.
Qed.

(** The test: append "HACK" to the returned list. *)
Lemma get_statement_copy_witness :
  exists copy st' st'',
    get_statement 1 store_Alice
    = (Ok (mkStatement "Alice" "RUB" (Fin false 100 (-2)) copy false), st') /\
    list_mutate copy (fun xs => xs ++ ["HACK"%string]) st' = (Ok tt, st'') /\
    lists st'' !! copy = Some ["+1.00 RUB"%string; "HACK"%string] /\
    lists st'' !! transactions account_Alice = Some ["+1.00 RUB"%string].
Proof.
  destruct (get_statement_copy store_Alice 1 account_Alice ["+1.00 RUB"%string])
    as (copy & st' & Hrun & _ & _ & _ & _ & _ & Hmut); [done | done |].
  destruct (Hmut (fun xs => xs ++ ["HACK"%string]))
    as (st'' & Hm & Hcopy & _ & Hlog & _).
  by exists copy, st', st''.
Defined.

(** ** Total deposits *)

Lemma total_loop_spec conv cur st refs : forall total cs,
  Forall (fun r => is_Some (accounts st !! r)) refs ->
  Forall2 (fun a c =>
             convert conv (PyDecimal (balance a)) (currency a) cur = Ok c /\
             money c = true)
          (open_accounts st refs) cs ->
  money total = true ->
  running_totals_fit (cents total) cs ->
  exists total',
    money total' = true /\
    cents total' = cents total + sum_cents cs /\
    total_loop conv cur refs total st = (Ok total', st).
Proof.
  induction refs as [|r refs IH]; intros total cs Hvalid Hconv Htotal Hfit.
  - apply Forall2_nil_inv_l in Hconv as ->.
    exists total. cbn. split; [done|]. split; [lia|done].
  - apply Forall_cons in Hvalid as [[a Ha] Hvalid].
    cbn [total_loop]. rewrite (bind_get _ _ _ _ Ha).
    unfold open_accounts in Hconv. cbn [omap list_omap] in Hconv.
    rewrite Ha in Hconv. fold (omap (fun r => accounts st !! r) refs) in Hconv.
    destruct (is_blocked a) eqn:Hblocked.
    + rewrite filter_cons_False in Hconv by (by rewrite Hblocked).
      by apply IH.
    + rewrite filter_cons_True in Hconv by done.
      apply Forall2_cons_inv_l in Hconv as (c & cs' & [Hc Hcm] & Hconv & ->).
      destruct Hfit as [Hfit1 Hfit].
      rewrite (bind_get _ _ _ _ Ha), bind_lift, Hc, bind_lift.
      destruct (add_money total c Htotal Hcm) as [Hadd _].
      destruct (Hadd Hfit1) as (total1 & -> & Hm1 & Hc1).
      destruct (IH total1 cs' Hvalid Hconv Hm1) as (total' & Hm' & Hc' & Hrun).
      { by rewrite Hc1. }
      exists total'. split; [done|]. split; [|done].
      rewrite Hc', Hc1. unfold sum_cents. cbn. lia.
Qed.

(** C8, as the code has it.  An unsupported reporting currency raises
    ValueError.  With a supported one, if the conversion of every unblocked
    account's balance returns a money value and every running total fits
    the 28 digits of the decimal context, [total_deposits] returns the sum
    of those converted balances, to two decimals; blocked accounts are
    skipped before anything of theirs is read or converted, and the store
    is unchanged. *)
Theorem total_deposits_spec st bank cur conv :
  (cur ∉ SUPPORTED_CURRENCIES ->
   total_deposits bank cur conv st = (Raise ValueError, st)) /\
  (cur ∈ SUPPORTED_CURRENCIES ->
   Forall (fun r => is_Some (accounts st !! r)) (snd <$> bank_accounts bank) ->
   forall cs,
   Forall2 (fun a c =>
              convert (converter_or_default conv) (PyDecimal (balance a))
                (currency a) cur = Ok c /\
              money c = true)
           (open_accounts st (snd <$> bank_accounts bank)) cs ->
   running_totals_fit 0 cs ->
   exists total,
     money total = true /\
     cents total = sum_cents cs /\
     total_deposits bank cur conv st = (Ok total, st)).
Proof.
  unfold total_deposits. split.
  - intros Hcur. by destruct (decide (cur ∉ SUPPORTED_CURRENCIES)).
  - intros Hcur Hvalid cs Hconv Hfit.
    destruct (decide (cur ∉ SUPPORTED_CURRENCIES)); [done|].
    destruct (total_loop_spec (converter_or_default conv) cur st
                (snd <$> bank_accounts bank) (Fin false 0 (-2)) cs)
      as (total & Hm & Hc & Hrun); [done | done | by vm_compute | done |].
    exists total. split; [done|]. split; [done|].
    unfold mbind at 1, M_bind. rewrite Hrun.
    unfold lift. by rewrite quantize_money.
Qed.

(** The test: the blocked dollar account is skipped, the total is 10.00. *)
Lemma total_deposits_spec_witness :
  exists total,
    cents total = 1000 /\
    total_deposits MyBank "RUB" (Some conv_USD_RUB) store_bank
    = (Ok total, store_bank).
Proof.
  destruct (total_deposits_spec store_bank MyBank "RUB" (Some conv_USD_RUB))
    as [_ H].
  destruct (H ltac:(by vm_compute)
              ltac:(repeat constructor; by eexists)
              [Fin false 1000 (-2)]
              ltac:(by repeat constructor)
              ltac:(by vm_compute))
    as (total & _ & Hc & Hrun).
  by exists total.
Defined.

(** C8 fails as stated at the edge of the context: two unblocked accounts
    of 9e25 RUB convert without error, and their sum needs 29 digits. *)
Lemma total_deposits_overflow_counterexample :
  total_deposits MyBank "RUB" None store_9e25
  = (Raise InvalidOperation, store_9e25).
Proof. by vm_compute. Qed.

(** ** A remark on the reach of C1 *)

(** The all-or-nothing guarantee covers a failing conversion, not every
    failure: the sender is debited before the target's new balance is
    computed, so when that balance does not fit the decimal context the
    transfer raises InvalidOperation with the sender already debited. *)
Example transfer_debits_before_target_overflow :
  let st := mkStore {[ 1%positive := account_A; 2%positive := account_full ]}
                    {[ 1%positive := [] ]} in
  exists st',
    transfer 1 (Some 2%positive) (PyInt 1) None st
    = (Raise InvalidOperation, st') /\
    balance <$> accounts st' !! 1%positive = Some (Fin false 9900 (-2)) /\
    balance <$> accounts st !! 1%positive = Some (Fin false 10000 (-2)).
Proof.
  eexists. split; [by vm_compute|]. split; by vm_compute.
Qed.

(** * Further properties of the ledger *)

(** ** Normalization and conversion *)

(** What normalization returns, it returns again: it is the identity on its
    own results. *)
Theorem normalize_idempotent v d :
  _to_decimal_money v = Ok d -> _to_decimal_money (PyDecimal d) = Ok d.
Proof.
  intros Hnorm.
  assert (Hq : exists d0, money_q d0 = Ok d).
  { destruct v as [b|n|r|d0|s|]; try done;
      [exists (of_int n) | exists r | exists d0]; exact Hnorm. }
  destruct Hq as (d0 & [Hm|[-> _]]%quantize_result); [|done].
  by apply quantize_money.
Qed.

Lemma normalize_idempotent_witness :
  _to_decimal_money (PyDecimal (Fin false 101 (-2))) = Ok (Fin false 101 (-2)).
Proof.
  apply (normalize_idempotent (PyFloat (Fin false 1005 (-3)))). by vm_compute.
Defined.

(** A returned normalization is a money value (exponent -2, at most 28
    digits), except that a quiet NaN given as a float or a Decimal comes
    back as it is. *)
Theorem normalize_range v d :
  _to_decimal_money v = Ok d ->
  money d = true \/
  (d = NaN false /\ (v = PyFloat (NaN false) \/ v = PyDecimal (NaN false))).
Proof.
  intros Hnorm.
  destruct v as [b|n|r|d0|s|]; try done.
  - apply quantize_result in Hnorm as [Hm|[_ [=]]]. by left.
  - apply quantize_result in Hnorm as [Hm|[-> ->]]; [by left | right; eauto].
  - apply quantize_result in Hnorm as [Hm|[-> ->]]; [by left | right; eauto].
Qed.

Lemma normalize_range_witness :
  money (Fin false 1000 (-2)) = true \/
  (Fin false 1000 (-2) = NaN false /\
   (PyInt 10 = PyFloat (NaN false) \/ PyInt 10 = PyDecimal (NaN false))).
Proof. apply (normalize_range (PyInt 10)). by vm_compute. Defined.

(** Products of numbers that are not NaN are not NaN. *)
Lemma fix_is_fin s c e r : _fix s c e = Ok r -> exists s' c' e', r = Fin s' c' e'.
Proof.
  unfold _fix. repeat case_match; intros [= <-]; eauto.
Qed.

Lemma mul_not_nan a b p :
  mul a b = Ok p -> is_nan a = false -> is_nan b = false -> is_nan p = false.
Proof.
  destruct a as [s1 c1 e1|s1|g1], b as [s2 c2 e2|s2|g2]; try done; cbn;
    intros Hmul _ _.
  - by apply fix_is_fin in Hmul as (s & c & e & ->).
  - destruct (c1 =? 0)%N; [done|]. by injection Hmul as <-.
  - destruct (c2 =? 0)%N; [done|]. by injection Hmul as <-.
  - by injection Hmul as <-.
Qed.

Lemma quantize_not_nan d r :
  money_q d = Ok r -> is_nan d = false -> money r = true.
Proof.
  intros [Hm|[_ ->]]%quantize_result; done.
Qed.

Lemma convert_money rates d from_currency to_currency c :
  no_nan_rates rates ->
  is_nan d = false ->
  CurrencyConverter_convert rates (PyDecimal d) from_currency to_currency = Ok c ->
  money c = true.
Proof.
  intros Hrates Hd. unfold CurrencyConverter_convert.
  destruct (decide (from_currency ∉ _)); [done|].
  destruct (decide (to_currency ∉ _)); [done|].
  fold (money_q d). destruct (money_q d) as [q|] eqn:Hq; [|done].
  cbn [mbind result_bind]. pose proof (quantize_not_nan _ _ Hq Hd) as Hqm.
  destruct (decide (from_currency = to_currency)); [by intros [= <-]|].
  destruct (rates !! _) as [rate|] eqn:Hrate; [|done].
  destruct (mul q rate) as [p|] eqn:Hmul; [|done]. cbn [mbind result_bind].
  fold (money_q p). intros Hp. apply (quantize_not_nan _ _ Hp).
  apply (mul_not_nan _ _ _ Hmul); [|by eapply Hrates].
  by apply money_inv in Hqm as (s & c' & -> & _).
Qed.

(** With a rate table free of NaN, whatever [convert] returns for a Decimal
    amount that is not NaN is a money value. *)
Theorem convert_returns_money rates d from_currency to_currency c :
  no_nan_rates rates ->
  is_nan d = false ->
  CurrencyConverter_convert rates (PyDecimal d) from_currency to_currency = Ok c ->
  money c = true.
Proof. apply convert_money. Qed.

Lemma default_rates_no_nan : no_nan_rates default_rates.
Proof.
  intros [f t] r Hr. unfold default_rates in Hr.
  repeat (apply lookup_insert_Some in Hr as [[_ <-]|[_ Hr]]; [done|]).
  apply lookup_singleton_Some in Hr as [_ <-]. done.
Qed.

Lemma convert_returns_money_witness :
  money (Fin false 12300 (-2)) = true.
Proof.
  apply (convert_returns_money default_rates (Fin false 123 (-2)) "USD" "RUB");
    [apply default_rates_no_nan | done | by vm_compute].
Defined.

(** Multiplying a money value by 100 and by 0.01, then normalizing. *)
Lemma times_100 s c :
  (100 * c < pow10 28)%N ->
  mul (Fin s c (-2)) (Fin false 100 0) ≫= money_q = Ok (Fin s (100 * c) (-2)).
Proof.
  intros Hc. unfold mul.
  cbn [check_nans is_snan is_nan orb mbind result_bind].
  rewrite Bool.xorb_false_r, (N.mul_comm c 100). change (-2 + 0) with (-2).
  rewrite fix_exact by (done || (ctx; lia)). cbn [mbind result_bind].
  by apply quantize_money, money_intro.
Qed.

Lemma times_001 s c :
  (c < pow10 28)%N ->
  mul (Fin s c (-2)) (Fin false 1 (-2)) ≫= money_q
  = Ok (Fin s ((c + 50) / 100) (-2)).
Proof.
  intros Hc. unfold mul.
  cbn [check_nans is_snan is_nan orb mbind result_bind].
  rewrite Bool.xorb_false_r, N.mul_1_r. change (-2 + -2) with (-4).
  rewrite fix_exact by (done || (ctx; lia)). cbn [mbind result_bind].
  unfold money_q. rewrite quantize_fin.
  assert (Hh : half_up c (-4) = ((c + 50) / 100)%N).
  { unfold half_up. cbn. pow10_args. rewrite pow10_2.
    replace (2 * c + 100)%N with ((c + 50) * 2)%N by lia.
    change (2 * 100)%N with (2 * 100)%N.
    rewrite <- N.Div0.div_div. by rewrite N.div_mul. }
  rewrite Hh.
  assert (((c + 50) / 100 <= c)%N).
  { destruct (N.eq_dec c 0) as [->|]; [done|].
    apply N.Div0.div_le_upper_bound. lia. }
  by destruct (N.ltb_spec ((c + 50) / 100) (pow10 28)); [|lia].
Qed.

Lemma convert_default s c from_currency to_currency rate :
  (c < pow10 28)%N ->
  from_currency ∈ SUPPORTED_CURRENCIES ->
  to_currency ∈ SUPPORTED_CURRENCIES ->
  from_currency <> to_currency ->
  default_rates !! (from_currency, to_currency) = Some rate ->
  CurrencyConverter_convert default_rates (PyDecimal (Fin s c (-2)))
    from_currency to_currency
  = mul (Fin s c (-2)) rate ≫= money_q.
Proof.
  intros Hc Hfrom Hto Hne Hrate. unfold CurrencyConverter_convert.
  destruct (decide (from_currency ∉ _)); [done|].
  destruct (decide (to_currency ∉ _)); [done|].
  fold (money_q (Fin s c (-2))). rewrite quantize_money by (by apply money_intro).
  cbn [mbind result_bind].
  destruct (decide (from_currency = to_currency)); [done|]. by rewrite Hrate.
Qed.

(** With the built-in rates dollars survive a round trip through rubles:
    USD -> RUB -> USD gives the amount back exactly, as long as the ruble
    amount fits the 28 digits. *)
Theorem convert_USD_RUB_USD s c :
  (100 * c < pow10 28)%N ->
  CurrencyConverter_convert default_rates (PyDecimal (Fin s c (-2))) "USD" "RUB"
  = Ok (Fin s (100 * c) (-2)) /\
  CurrencyConverter_convert default_rates (PyDecimal (Fin s (100 * c) (-2)))
    "RUB" "USD"
  = Ok (Fin s c (-2)).
Proof.
  intros Hc. split.
  - rewrite (convert_default _ _ _ _ (Fin false 100 0));
      [by apply times_100 | lia | by vm_compute..].
  - rewrite (convert_default _ _ _ _ (Fin false 1 (-2)));
      [| done | by vm_compute..].
    rewrite times_001 by done. do 2 f_equal.
    replace (100 * c + 50)%N with (50 + c * 100)%N by lia.
    rewrite N.div_add by done. by rewrite N.div_small.
Qed.

Lemma convert_USD_RUB_USD_witness :
  CurrencyConverter_convert default_rates (PyDecimal (Fin false 123 (-2)))
    "USD" "RUB" = Ok (Fin false 12300 (-2)) /\
  CurrencyConverter_convert default_rates (PyDecimal (Fin false 12300 (-2)))
    "RUB" "USD" = Ok (Fin false 123 (-2)).
Proof. apply (convert_USD_RUB_USD false 123). by vm_compute. Defined.



(** ** What the methods never touch *)

#[local] Instance same_identity_refl : Reflexive same_identity.
Proof. by intros a. Qed.

Lemma same_identity_trans a b c :
  same_identity a b -> same_identity b c -> same_identity a c.
Proof. intros (?&?&?&?) (?&?&?&?). repeat split; congruence. Qed.

#[local] Instance evolves_preorder : PreOrder evolves.
Proof.
  split.
  - intros st. split; intros x; by case_match.
  - intros st1 st2 st3 [Ha1 Hl1] [Ha2 Hl2]. split.
    + intros r. specialize (Ha1 r). specialize (Ha2 r).
      repeat case_match; try done. by eapply same_identity_trans.
    + intros l. specialize (Hl1 l). specialize (Hl2 l).
      repeat case_match; try done. by etrans.
Qed.

Section Preserves.
Context (R : store -> store -> Prop) `{!PreOrder R}.

Lemma preserves_ret {A} (a : A) : preserves R (mret a).
Proof. by intros st r st' [= _ <-]. Qed.

Lemma preserves_raise {A} e : preserves R (@raise A e).
Proof. by intros st r st' [= _ <-]. Qed.

Lemma preserves_lift {A} (x : result A) : preserves R (lift x).
Proof. by intros st r st' [= _ <-]. Qed.

Lemma preserves_get self : preserves R (get_account self).
Proof.
  intros st r st'. unfold get_account. case_match; by intros [= _ <-].
Qed.

Lemma preserves_isinstance r : preserves R (isinstance_BankAccount r).
Proof. by intros st x st' [= _ <-]. Qed.

Lemma preserves_bind {A B} (m : M A) (k : A -> M B) :
  preserves R m -> (forall a, preserves R (k a)) -> preserves R (m ≫= k).
Proof.
  intros Hm Hk st r st'. unfold mbind, M_bind.
  destruct (m st) as [[a|e] st1] eqn:Hrun.
  - intros Hrun'. etrans; [by eapply Hm | by eapply Hk].
  - intros [= _ <-]. by eapply Hm.
Qed.

End Preserves.

Lemma evolves_update self f :
  (forall a, same_identity a (f a)) -> preserves evolves (update_account self f).
Proof.
  intros Hf st r st'. unfold update_account.
  destruct (accounts st !! self) as [a|] eqn:Ha; intros [= _ <-]; [|done].
  split; [intros r'; cbn | intros l; cbn; by case_match].
  destruct (decide (self = r')) as [<-|Hne].
  - rewrite Ha, lookup_insert_eq. apply Hf.
  - rewrite lookup_insert_ne by done. by case_match.
Qed.

Lemma evolves_append l line : preserves evolves (list_append l line).
Proof.
  intros st r st'. unfold list_append.
  destruct (lists st !! l) as [xs|] eqn:Hl; intros [= _ <-]; [|done].
  split; [intros r'; cbn; by case_match | intros l'; cbn].
  destruct (decide (l = l')) as [<-|Hne].
  - rewrite Hl, lookup_insert_eq. by apply prefix_app_r.
  - rewrite lookup_insert_ne by done. by case_match.
Qed.

(** Symbolic execution of a method body against a relation. *)
Ltac preserves_steps R :=
  repeat first
    [ apply (preserves_ret R) | apply (preserves_raise R)
    | apply (preserves_lift R) | apply (preserves_get R)
    | apply (preserves_isinstance R)
    | apply evolves_append
    | apply evolves_update; by intros []
    | apply (preserves_bind R); [| intros ?]
    | progress cbv beta
    | match goal with
      | |- preserves _ (if ?b then _ else _) => destruct b
      | |- preserves _ (match ?x with _ => _ end) => destruct x
      end ].

(** None of the four mutating methods, whatever its arguments and whether
    it returns or raises, creates or removes an account or a list, changes
    an account's owner, list, blocked flag or overdraft limit, or alters a
    line already logged: transaction lists only grow at the end. *)
Theorem mutators_evolve self amount target conv target_currency st r st' :
  deposit self amount st = (r, st') \/
  withdraw self amount st = (r, st') \/
  convert_to self target_currency conv st = (r, st') \/
  transfer self target amount conv st = (r, st') ->
  evolves st st'.
Proof.
  intros [Hrun|[Hrun|[Hrun|Hrun]]]; revert st r st' Hrun;
    change (preserves evolves (deposit self amount)) ||
    change (preserves evolves (withdraw self amount)) ||
    change (preserves evolves (convert_to self target_currency conv)) ||
    change (preserves evolves (transfer self target amount conv)).
  - unfold deposit. preserves_steps evolves.
  - unfold withdraw. preserves_steps evolves.
  - unfold convert_to. preserves_steps evolves.
  - unfold transfer. preserves_steps evolves.
Qed.

Lemma mutators_evolve_witness :
  evolves store_AB
    (transfer 1 (Some 2%positive) (PyInt 10) (Some conv_RUB_USD) store_AB).2.
Proof.
  eapply (mutators_evolve 1 (PyInt 10) (Some 2%positive) (Some conv_RUB_USD)
            "USD" store_AB).
  right; right; right. apply surjective_pairing.
Defined.

(** [total_deposits] only reads: whatever the bank, the currency and the
    converter, and whether it returns or raises, the store afterwards is
    the store before. *)
Theorem total_deposits_read_only bank cur conv st r st' :
  total_deposits bank cur conv st = (r, st') -> st' = st.
Proof.
  intros Hrun. symmetry. revert st r st' Hrun.
  change (preserves eq (total_deposits bank cur conv)).
  assert (Hloop : forall refs c total,
            preserves eq (total_loop c cur refs total)).
  { induction refs as [|ref refs IH]; intros c total; cbn [total_loop];
      preserves_steps (@eq store); apply IH. }
  unfold total_deposits. preserves_steps (@eq store). apply Hloop.
Qed.

Lemma total_deposits_read_only_witness :
  (total_deposits MyBank "EUR" None store_bank).2 = store_bank.
Proof.
  eapply (total_deposits_read_only MyBank "EUR" None store_bank).
  apply surjective_pairing.
Defined.

(** ** Every outcome of [deposit], [withdraw] and [convert_to] *)

(** [deposit] either raises before it has changed anything, or has set
    the balance; after that only a missing transaction list can stop it. *)
Lemma deposit_inv self amount st r st' :
  deposit self amount st = (r, st') ->
  (st' = st /\ exists e, r = Raise e) \/
  exists a d nb,
    accounts st !! self = Some a /\
    _to_decimal_money amount = Ok d /\
    le d (of_int 0) = Ok false /\
    add (balance a) d ≫= money_q = Ok nb /\
    accounts st' = <[self := set_balance nb a]> (accounts st) /\
    ((r = Ok nb /\ is_Some (lists st !! transactions a)) \/
     (r = Raise AttributeError /\ lists st !! transactions a = None)).
Proof.
  unfold deposit. intros Hrun. rewrite bind_lift in Hrun.
  destruct (_to_decimal_money amount) as [d|] eqn:Hnorm;
    [|injection Hrun as <- <-; left; eauto].
  rewrite bind_lift in Hrun.
  destruct (le d (of_int 0)) as [[]|] eqn:Hle;
    [injection Hrun as <- <-; left; eauto | |
     injection Hrun as <- <-; left; eauto].
  destruct (accounts st !! self) as [a|] eqn:Hself.
  2:{ rewrite bind_get_None in Hrun by done.
      injection Hrun as <- <-; left; eauto. }
  rewrite (bind_get _ _ _ _ Hself), bind_lift in Hrun.
  destruct (gt d MAX_DEPOSIT) as [[]|];
    [injection Hrun as <- <-; left; eauto | |
     injection Hrun as <- <-; left; eauto].
  rewrite (bind_get _ _ _ _ Hself), bind_lift in Hrun.
  destruct (add (balance a) d ≫= money_q) as [nb|] eqn:Hadd;
    [|injection Hrun as <- <-; left; eauto].
  rewrite (bind_update _ _ _ _ _ Hself) in Hrun.
  set (st1 := mkStore _ _) in Hrun.
  assert (Hself1 : accounts st1 !! self = Some (set_balance nb a))
    by apply lookup_insert_eq.
  rewrite (bind_get _ _ _ _ Hself1) in Hrun.
  cbn [set_balance transactions currency] in Hrun.
  right. exists a, d, nb. do 4 (split; [done|]).
  destruct (lists st !! transactions a) as [log|] eqn:Hlog.
  - assert (Hlog1 : lists st1 !! transactions a = Some log) by done.
    rewrite (bind_append _ _ _ _ _ Hlog1) in Hrun.
    set (st2 := mkStore _ _) in Hrun.
    assert (Hself2 : accounts st2 !! self = Some (set_balance nb a))
      by apply lookup_insert_eq.
    rewrite (bind_get _ _ _ _ Hself2) in Hrun.
    injection Hrun as <- <-. split; [done|]. left. eauto.
  - rewrite (bind_append_None (transactions a) _ _ st1) in Hrun by done.
    injection Hrun as <- <-. split; [done|]. by right.
Qed.

Lemma withdraw_inv self amount st r st' :
  withdraw self amount st = (r, st') ->
  (st' = st /\ exists e, r = Raise e) \/
  exists a d fee total nb,
    accounts st !! self = Some a /\
    _to_decimal_money amount = Ok d /\
    le d (of_int 0) = Ok false /\
    mul d (Fin false 1 (-2)) ≫= money_q = Ok fee /\
    add d fee = Ok total /\
    sub (balance a) total ≫= money_q = Ok nb /\
    accounts st' = <[self := set_balance nb a]> (accounts st) /\
    ((r = Ok d /\ is_Some (lists st !! transactions a)) \/
     (r = Raise AttributeError /\ lists st !! transactions a = None)).
Proof.
  unfold withdraw. intros Hrun.
  destruct (accounts st !! self) as [a|] eqn:Hself.
  2:{ rewrite bind_get_None in Hrun by done.
      injection Hrun as <- <-; left; eauto. }
  rewrite (bind_get _ _ _ _ Hself) in Hrun.
  destruct (is_blocked a); [injection Hrun as <- <-; left; eauto|].
  rewrite bind_lift in Hrun.
  destruct (_to_decimal_money amount) as [d|] eqn:Hnorm;
    [|injection Hrun as <- <-; left; eauto].
  rewrite bind_lift in Hrun.
  destruct (le d (of_int 0)) as [[]|] eqn:Hle;
    [injection Hrun as <- <-; left; eauto | |
     injection Hrun as <- <-; left; eauto].
  rewrite bind_lift in Hrun.
  destruct (mul d (Fin false 1 (-2)) ≫= money_q) as [fee|] eqn:Hfee;
    [|injection Hrun as <- <-; left; eauto].
  rewrite bind_lift in Hrun.
  destruct (add d fee) as [total|] eqn:Htotal;
    [|injection Hrun as <- <-; left; eauto].
  rewrite (bind_get _ _ _ _ Hself), bind_lift in Hrun.
  destruct (_ ≫= _) as [[]|] in Hrun;
    [injection Hrun as <- <-; left; eauto | |
     injection Hrun as <- <-; left; eauto].
  rewrite (bind_get _ _ _ _ Hself), bind_lift in Hrun.
  destruct (sub (balance a) total ≫= money_q) as [nb|] eqn:Hsub;
    [|injection Hrun as <- <-; left; eauto].
  rewrite (bind_update _ _ _ _ _ Hself) in Hrun.
  set (st1 := mkStore _ _) in Hrun.
  assert (Hself1 : accounts st1 !! self = Some (set_balance nb a))
    by apply lookup_insert_eq.
  rewrite (bind_get _ _ _ _ Hself1) in Hrun.
  cbn [set_balance transactions currency] in Hrun.
  right. exists a, d, fee, total, nb. do 6 (split; [done|]).
  destruct (lists st !! transactions a) as [log|] eqn:Hlog.
  - assert (Hlog1 : lists st1 !! transactions a = Some log) by done.
    rewrite (bind_append _ _ _ _ _ Hlog1) in Hrun.
    injection Hrun as <- <-. split; [done|]. left. eauto.
  - rewrite (bind_append_None (transactions a) _ _ st1) in Hrun by done.
    injection Hrun as <- <-. split; [done|]. by right.
Qed.

Lemma convert_to_inv self target_currency conv st r st' :
  convert_to self target_currency conv st = (r, st') ->
  (st' = st /\ exists e, r = Raise e) \/
  exists a nb,
    accounts st !! self = Some a /\
    target_currency ∈ SUPPORTED_CURRENCIES /\
    convert (converter_or_default conv) (PyDecimal (balance a)) (currency a)
      target_currency = Ok nb /\
    accounts st'
    = <[self := mkAccount (owner a) nb target_currency (transactions a)
                  (is_blocked a) (overdraft_limit a)]> (accounts st) /\
    ((r = Ok nb /\ exists log,
        lists st !! transactions a = Some log /\
        lists st'
        = <[transactions a :=
              log ++ [("Конвертировать в " +:+ target_currency)%string]]>
            (lists st)) \/
     (r = Raise AttributeError /\ lists st !! transactions a = None /\
      lists st' = lists st)).
Proof.
  unfold convert_to. intros Hrun.
  destruct (decide (target_currency ∉ _)) as [|Hcur%dec_stable];
    [injection Hrun as <- <-; left; eauto|].
  destruct (accounts st !! self) as [a|] eqn:Hself.
  2:{ rewrite bind_get_None in Hrun by done.
      injection Hrun as <- <-; left; eauto. }
  rewrite (bind_get _ _ _ _ Hself), bind_lift in Hrun.
  destruct (convert _ _ _ _) as [nb|] eqn:Hconv;
    [|injection Hrun as <- <-; left; eauto].
  rewrite (bind_update _ _ _ _ _ Hself) in Hrun.
  set (st1 := mkStore _ _) in Hrun.
  assert (Hself1 : accounts st1 !! self = Some (set_balance nb a))
    by apply lookup_insert_eq.
  rewrite (bind_update _ _ _ _ _ Hself1) in Hrun.
  set (st2 := mkStore _ _) in Hrun.
  assert (Hself2 : accounts st2 !! self
                   = Some (set_currency target_currency (set_balance nb a)))
    by apply lookup_insert_eq.
  rewrite (bind_get _ _ _ _ Hself2) in Hrun.
  cbn [set_balance set_currency transactions currency] in Hrun.
  right. exists a, nb. do 3 (split; [done|]).
  assert (Hacc : accounts st2
                 = <[self := mkAccount (owner a) nb target_currency
                               (transactions a) (is_blocked a)
                               (overdraft_limit a)]> (accounts st)).
  { unfold st2, st1. cbn. by rewrite insert_insert_eq. }
  destruct (lists st !! transactions a) as [log|] eqn:Hlog.
  - assert (Hlog2 : lists st2 !! transactions a = Some log) by done.
    rewrite (bind_append _ _ _ _ _ Hlog2) in Hrun.
    set (st3 := mkStore _ _) in Hrun.
    assert (Hself3 : accounts st3 !! self
                   = Some (set_currency target_currency (set_balance nb a)))
      by apply lookup_insert_eq.
    rewrite (bind_get _ _ _ _ Hself3) in Hrun.
    injection Hrun as <- <-. split; [done|]. left. eauto.
  - rewrite (bind_append_None (transactions a) _ _ st2) in Hrun by done.
    injection Hrun as <- <-. split; [done|]. by right.
Qed.

(** Sums and differences of numbers that are not NaN are not NaN, and what
    they raise is a decimal exception. *)
Lemma add_fin_is_fin s1 c1 e1 s2 c2 e2 r :
  add_fin s1 c1 e1 s2 c2 e2 = Ok r -> is_nan r = false.
Proof.
  unfold add_fin. intros Hr.
  assert (Hfix : exists s c e, _fix s c e = Ok r).
  { repeat case_match; eauto. }
  destruct Hfix as (s & c & e & (s' & c' & e' & ->)%fix_is_fin). done.
Qed.

Lemma add_not_nan a b r :
  add a b = Ok r -> is_nan a = false -> is_nan b = false -> is_nan r = false.
Proof.
  destruct a as [s1 c1 e1|s1|g1], b as [s2 c2 e2|s2|g2]; try done; cbn;
    intros Hadd _ _.
  - by eapply add_fin_is_fin.
  - by injection Hadd as <-.
  - by injection Hadd as <-.
  - destruct (negb _); [done|]. by injection Hadd as <-.
Qed.

Lemma sub_not_nan a b r :
  sub a b = Ok r -> is_nan a = false -> is_nan b = false -> is_nan r = false.
Proof.
  intros Hsub Ha Hb. unfold sub, check_nans in Hsub.
  assert (Hsa : is_snan a = false) by (by destruct a as [| |[]]).
  assert (Hsb : is_snan b = false) by (by destruct b as [| |[]]).
  rewrite Hsa, Hsb, Ha, Hb in Hsub. cbn in Hsub.
  apply (add_not_nan _ _ _ Hsub Ha). by destruct b.
Qed.

Lemma add_fin_raises s1 c1 e1 s2 c2 e2 x :
  add_fin s1 c1 e1 s2 c2 e2 = Raise x -> x = Overflow.
Proof.
  unfold add_fin. intros Hr.
  assert (Hfix : exists s c e, _fix s c e = Raise x).
  { repeat case_match; eauto. }
  destruct Hfix as (s & c & e & Hfix). by eapply fix_raises.
Qed.

Lemma add_raises a b x :
  add a b = Raise x -> x = InvalidOperation \/ x = Overflow.
Proof.
  destruct a as [s1 c1 e1|s1|[]], b as [s2 c2 e2|s2|[]]; cbn;
    try (intros [= <-]; by left); try done.
  - intros Hx. right. by eapply add_fin_raises.
  - destruct (negb _); [|done]. intros [= <-]. by left.
Qed.

(** Normalizing a sum or a difference of two numbers that are not NaN
    gives a money value. *)
Lemma add_quantize_money a b r :
  add a b ≫= money_q = Ok r -> is_nan a = false -> is_nan b = false ->
  money r = true.
Proof.
  destruct (add a b) as [x|] eqn:Hadd; [|done]. cbn [mbind result_bind].
  intros Hq Ha Hb. apply (quantize_not_nan _ _ Hq). by eapply add_not_nan.
Qed.

Lemma sub_quantize_money a b r :
  sub a b ≫= money_q = Ok r -> is_nan a = false -> is_nan b = false ->
  money r = true.
Proof.
  destruct (sub a b) as [x|] eqn:Hsub; [|done]. cbn [mbind result_bind].
  intros Hq Ha Hb. apply (quantize_not_nan _ _ Hq). by eapply sub_not_nan.
Qed.

Lemma money_not_nan d : money d = true -> is_nan d = false.
Proof. by intros (s & c & -> & _)%money_inv. Qed.

(** ** Every outcome of [transfer] *)

(** [transfer] raises before it has changed anything, or stops between the
    two balance assignments on a decimal exception, or makes both; after
    that only a missing transaction list can stop it. *)
Lemma transfer_inv self target amount conv st r st' :
  transfer self target amount conv st = (r, st') ->
  (st' = st /\ exists e, r = Raise e) \/
  exists tgt a t d credited nb,
    target = Some tgt /\
    accounts st !! self = Some a /\
    accounts st !! tgt = Some t /\
    _to_decimal_money amount = Ok d /\
    le d (of_int 0) = Ok false /\
    convert (converter_or_default conv) (PyDecimal d) (currency a) (currency t)
    = Ok credited /\
    sub (balance a) d ≫= money_q = Ok nb /\
    ((st' = mkStore (<[self := set_balance nb a]> (accounts st)) (lists st) /\
      exists e, r = Raise e /\ (e = InvalidOperation \/ e = Overflow)) \/
     exists t1 nt,
       <[self := set_balance nb a]> (accounts st) !! tgt = Some t1 /\
       add (balance t1) credited ≫= money_q = Ok nt /\
       accounts st'
       = <[tgt := set_balance nt t1]>
           (<[self := set_balance nb a]> (accounts st)) /\
       (r = Ok credited \/
        (r = Raise AttributeError /\
         (lists st !! transactions a = None \/
          lists st !! transactions t = None)))).
Proof.
  unfold transfer. intros Hrun.
  destruct (accounts st !! self) as [a|] eqn:Hself.
  2:{ rewrite bind_get_None in Hrun by done.
      injection Hrun as <- <-; left; eauto. }
  rewrite (bind_get _ _ _ _ Hself) in Hrun.
  destruct (is_blocked a); [injection Hrun as <- <-; left; eauto|].
  destruct target as [tgt|]; [|injection Hrun as <- <-; left; eauto].
  rewrite bind_isinstance in Hrun.
  destruct (accounts st !! tgt) as [t|] eqn:Htgt.
  2:{ rewrite bool_decide_false in Hrun by (by intros [? ?]).
      injection Hrun as <- <-; left; eauto. }
  rewrite bool_decide_true in Hrun by eauto. cbn [negb] in Hrun.
  rewrite bind_lift in Hrun.
  destruct (_to_decimal_money amount) as [d|] eqn:Hnorm;
    [|injection Hrun as <- <-; left; eauto].
  rewrite bind_lift in Hrun.
  destruct (le d (of_int 0)) as [[]|] eqn:Hle;
    [injection Hrun as <- <-; left; eauto | |
     injection Hrun as <- <-; left; eauto].
  rewrite (bind_get _ _ _ _ Hself), bind_lift in Hrun.
  destruct (_ ≫= _) as [[]|] in Hrun;
    [injection Hrun as <- <-; left; eauto | |
     injection Hrun as <- <-; left; eauto].
  rewrite (bind_get _ _ _ _ Hself), (bind_get _ _ _ _ Htgt), bind_lift in Hrun.
  destruct (convert _ _ _ _) as [credited|] eqn:Hconv;
    [|injection Hrun as <- <-; left; eauto].
  rewrite (bind_get _ _ _ _ Hself), bind_lift in Hrun.
  destruct (sub (balance a) d ≫= money_q) as [nb|] eqn:Hsub;
    [|injection Hrun as <- <-; left; eauto].
  rewrite (bind_update _ _ _ _ _ Hself) in Hrun.
  set (st1 := mkStore _ _) in Hrun.
  right. exists tgt, a, t, d, credited, nb. do 7 (split; [done|]).
  assert (Ht1 : exists t1, accounts st1 !! tgt = Some t1 /\
                           transactions t1 = transactions t /\
                           currency t1 = currency t /\ owner t1 = owner t).
  { cbn. destruct (decide (self = tgt)) as [<-|Hne].
    - rewrite lookup_insert_eq. exists (set_balance nb a).
      rewrite Hself in Htgt. by injection Htgt as <-.
    - rewrite lookup_insert_ne by done. eauto. }
  destruct Ht1 as (t1 & Htgt1 & Htr1 & Hcur1 & Hown1).
  rewrite (bind_get _ _ _ _ Htgt1), bind_lift in Hrun.
  destruct (add (balance t1) credited ≫= money_q) as [nt|] eqn:Hadd.
  2:{ injection Hrun as <- <-. left. split; [done|]. eexists. split; [done|].
      destruct (add (balance t1) credited) as [x|] eqn:Hx.
      - cbn [mbind result_bind] in Hadd.
        by destruct (quantize_raises _ _ _ _ Hadd); eauto.
      - cbn [mbind result_bind] in Hadd. injection Hadd as <-.
        by eapply add_raises. }
  rewrite (bind_update _ _ _ _ _ Htgt1) in Hrun.
  set (st2 := mkStore _ _) in Hrun.
  right. exists t1, nt. split; [done|]. split; [done|].
  assert (Hself2 : exists a2, accounts st2 !! self = Some a2 /\
                              transactions a2 = transactions a).
  { cbn. destruct (decide (tgt = self)) as [->|Hne].
    - rewrite lookup_insert_eq. eexists. split; [done|].
      cbn in Htgt1. rewrite lookup_insert_eq in Htgt1.
      by injection Htgt1 as <-.
    - rewrite lookup_insert_ne, lookup_insert_eq by done. eauto. }
  destruct Hself2 as (a2 & Hself2 & Htr2).
  assert (Htgt2 : accounts st2 !! tgt = Some (set_balance nt t1))
    by apply lookup_insert_eq.
  rewrite (bind_get _ _ _ _ Hself2), (bind_get _ _ _ _ Htgt2) in Hrun.
  rewrite Htr2 in Hrun.
  destruct (lists st !! transactions a) as [log_a|] eqn:Hlog_a.
  2:{ rewrite (bind_append_None (transactions a) _ _ st2) in Hrun by done.
      injection Hrun as <- <-. split; [done|]. right. eauto. }
  assert (Hlog_a2 : lists st2 !! transactions a = Some log_a) by done.
  rewrite (bind_append _ _ _ _ _ Hlog_a2) in Hrun.
  set (st3 := mkStore _ _) in Hrun.
  assert (Htgt3 : accounts st3 !! tgt = Some (set_balance nt t1)) by done.
  assert (Hself3 : accounts st3 !! self = Some a2) by done.
  rewrite (bind_get _ _ _ _ Htgt3), (bind_get _ _ _ _ Hself3) in Hrun.
  cbn [set_balance transactions] in Hrun. rewrite Htr1 in Hrun.
  destruct (lists st3 !! transactions t) as [log_t|] eqn:Hlog_t.
  - rewrite (bind_append _ _ _ _ _ Hlog_t) in Hrun.
    injection Hrun as <- <-. split; [done|]. by left.
  - rewrite (bind_append_None (transactions t) _ _ st3) in Hrun by done.
    injection Hrun as <- <-. split; [done|]. right. split; [done|]. right.
    cbn in Hlog_t. by apply lookup_insert_None in Hlog_t as [? _].
Qed.

(** ** Failures *)




(** A [deposit], [withdraw] or [convert_to] that raises, on an account that
    has its transaction list, has changed nothing: every check and every
    computation that can fail comes before the first assignment. *)
Theorem failure_leaves_store self amount target_currency conv st e st' :
  (forall a, accounts st !! self = Some a ->
             is_Some (lists st !! transactions a)) ->
  deposit self amount st = (Raise e, st') \/
  withdraw self amount st = (Raise e, st') \/
  convert_to self target_currency conv st = (Raise e, st') ->
  st' = st.
Proof.
  intros Hlist [Hrun|[Hrun|Hrun]].
  - apply deposit_inv in Hrun as [[-> _]|(a & d & nb & Ha & _ & _ & _ & _ & H)];
      [done|].
    destruct H as [[[=] _]|[_ Hnone]].
    destruct (Hlist a Ha) as [log Hlog]. congruence.
  - apply withdraw_inv in Hrun
      as [[-> _]|(a & d & fee & total & nb & Ha & _ & _ & _ & _ & _ & _ & H)];
      [done|].
    destruct H as [[[=] _]|[_ Hnone]].
    destruct (Hlist a Ha) as [log Hlog]. congruence.
  - apply convert_to_inv in Hrun as [[-> _]|(a & nb & Ha & _ & _ & _ & H)];
      [done|].
    destruct H as [[[=] _]|(_ & Hnone & _)].
    destruct (Hlist a Ha) as [log Hlog]. congruence.
Qed.

(** [withdraw(0)] on account A. *)
Lemma failure_leaves_store_witness :
  (withdraw 1 (PyInt 0) store_AB).2 = store_AB.
Proof.
  eapply (failure_leaves_store 1 (PyInt 0) "USD" None store_AB ValueError).
  - intros a [= <-]. by eexists.
  - right. left. by vm_compute.
Defined.

(** A [transfer] that raises, in a store where every account has its
    transaction list, has either changed nothing or stopped on a decimal
    exception between its two balance assignments: the sender is debited,
    the target is not credited, and no line is logged. *)
Theorem transfer_failure_outcome self target amount conv st e st' :
  (forall r a, accounts st !! r = Some a ->
               is_Some (lists st !! transactions a)) ->
  transfer self target amount conv st = (Raise e, st') ->
  st' = st \/
  exists a d new_balance,
    accounts st !! self = Some a /\
    _to_decimal_money amount = Ok d /\
    sub (balance a) d ≫= money_q = Ok new_balance /\
    st' = mkStore (<[self := set_balance new_balance a]> (accounts st))
            (lists st) /\
    (e = InvalidOperation \/ e = Overflow).
Proof.
  intros Hlists Hrun.
  apply transfer_inv in Hrun
    as [[-> _]|(tgt & a & t & d & credited & nb & -> & Ha & Ht & Hd & _ & _
                & Hnb & H)]; [by left|].
  destruct H as [[-> (e' & [= <-] & He)]|(t1 & nt & _ & _ & _ & H)].
  - right. by exists a, d, nb.
  - destruct H as [[=]|[_ [Hnone|Hnone]]].
    + destruct (Hlists _ _ Ha) as [log Hlog]. congruence.
    + destruct (Hlists _ _ Ht) as [log Hlog]. congruence.
Qed.

(** A transfer of 1 RUB into the account that holds the largest money
    value. *)
Lemma transfer_failure_outcome_witness :
  let st := mkStore {[ 1%positive := account_A; 2%positive := account_full ]}
                    {[ 1%positive := [] ]} in
  (transfer 1 (Some 2%positive) (PyInt 1) None st).2 = st \/
  exists a d new_balance,
    accounts st !! 1%positive = Some a /\
    _to_decimal_money (PyInt 1) = Ok d /\
    sub (balance a) d ≫= money_q = Ok new_balance /\
    (transfer 1 (Some 2%positive) (PyInt 1) None st).2
    = mkStore (<[1%positive := set_balance new_balance a]> (accounts st))
        (lists st) /\
    (InvalidOperation = InvalidOperation \/ InvalidOperation = Overflow).
Proof.
  intros st.
  apply (transfer_failure_outcome 1 (Some 2%positive) (PyInt 1) None st
           InvalidOperation).
  - intros r a Hr. unfold st in Hr. cbn in Hr.
    apply lookup_insert_Some in Hr as [[_ <-]|[_ Hr]]; [by eexists|].
    apply lookup_singleton_Some in Hr as [_ <-]. by eexists.
  - by vm_compute.
Defined.

(** ** Balances stay money *)

Lemma balances_money_insert st st' self a' :
  balances_money st ->
  accounts st' = <[self := a']> (accounts st) ->
  money (balance a') = true ->
  balances_money st'.
Proof.
  intros Hinv Hacc Hm r a. rewrite Hacc.
  intros [[_ <-]|[_ Hr]]%lookup_insert_Some; [done | by eapply Hinv].
Qed.

(** The converters the class builds turn money into money when their table
    holds no NaN; the built-in table holds none. *)
Lemma CurrencyConverter_money rates :
  (forall r, rates = Some r -> no_nan_rates r) ->
  money_converter (CurrencyConverter rates).
Proof.
  intros Hrates d f t c Hd. cbn. apply convert_money; [|by apply money_not_nan].
  destruct rates as [r|]; cbn; [|apply default_rates_no_nan].
  destruct (decide (r = ∅)); [apply default_rates_no_nan | by apply Hrates].
Qed.

(** Whatever [deposit] and [withdraw] do, and whatever [convert_to] and
    [transfer] do with a converter that turns money into money, a store in
    which every balance is a money value stays one: no argument and no
    failure leaves a balance with a third decimal, an infinity or a NaN. *)
Theorem balances_stay_money self amount target conv target_currency st r st' :
  balances_money st ->
  money_converter (converter_or_default conv) ->
  deposit self amount st = (r, st') \/
  withdraw self amount st = (r, st') \/
  convert_to self target_currency conv st = (r, st') \/
  transfer self target amount conv st = (r, st') ->
  balances_money st'.
Proof.
  intros Hinv Hconv [Hrun|[Hrun|[Hrun|Hrun]]].
  - apply deposit_inv in Hrun
      as [[-> _]|(a & d & nb & Ha & Hd & Hle & Hnb & Hacc & _)]; [done|].
    destruct (positive_amount _ _ Hd Hle) as [Hdm _].
    apply (balances_money_insert _ _ _ _ Hinv Hacc). cbn.
    apply (add_quantize_money _ _ _ Hnb); apply money_not_nan; eauto.
  - apply withdraw_inv in Hrun
      as [[-> _]|(a & d & fee & total & nb & Ha & Hd & Hle & Hfee & Htot & Hnb
                  & Hacc & _)]; [done|].
    destruct (positive_amount _ _ Hd Hle) as [Hdm _].
    apply (balances_money_insert _ _ _ _ Hinv Hacc). cbn.
    apply (sub_quantize_money _ _ _ Hnb); [apply money_not_nan; eauto|].
    apply (add_not_nan _ _ _ Htot); [by apply money_not_nan|].
    destruct (mul d (Fin false 1 (-2))) as [p|] eqn:Hp; [|done].
    cbn [mbind result_bind] in Hfee. apply money_not_nan.
    apply (quantize_not_nan _ _ Hfee).
    apply (mul_not_nan _ _ _ Hp); [by apply money_not_nan | done].
  - apply convert_to_inv in Hrun
      as [[-> _]|(a & nb & Ha & _ & Hnb & Hacc & _)]; [done|].
    apply (balances_money_insert _ _ _ _ Hinv Hacc). cbn.
    eapply Hconv; [|exact Hnb]. eauto.
  - apply transfer_inv in Hrun
      as [[-> _]|(tgt & a & t & d & credited & nb & -> & Ha & Ht & Hd & Hle
                  & Hcred & Hnb & H)]; [done|].
    destruct (positive_amount _ _ Hd Hle) as [Hdm _].
    assert (Hnbm : money nb = true).
    { apply (sub_quantize_money _ _ _ Hnb); apply money_not_nan; eauto. }
    assert (Hinv1 : balances_money
              (mkStore (<[self := set_balance nb a]> (accounts st)) (lists st))).
    { by eapply balances_money_insert. }
    destruct H as [[-> _]|(t1 & nt & Ht1 & Hnt & Hacc & _)]; [done|].
    apply (balances_money_insert _ _ _ _ Hinv1 Hacc). cbn.
    apply (add_quantize_money _ _ _ Hnt); apply money_not_nan.
    + exact (Hinv1 tgt t1 Ht1).
    + exact (Hconv _ _ _ _ Hdm Hcred).
Qed.

Lemma balances_stay_money_witness :
  balances_money
    (transfer 1 (Some 2%positive) (PyInt 10) None store_AB).2.
Proof.
  eapply (balances_stay_money 1 (PyInt 10) (Some 2%positive) None "USD"
            store_AB).
  - intros r a Hr. unfold store_AB in Hr. cbn in Hr.
    apply lookup_insert_Some in Hr as [[_ <-]|[_ Hr]]; [done|].
    by apply lookup_singleton_Some in Hr as [_ <-].
  - by apply CurrencyConverter_money.
  - do 3 right. apply surjective_pairing.
Defined.

(** ** Currency change of an account *)

(** [convert_to] on an account, blocked or not, with a supported target
    currency: when the converter raises, that exception comes out and
    nothing has changed; otherwise the balance is the converted balance,
    the currency is the target, one line naming the target is appended,
    and the new balance is returned. *)
Theorem convert_to_run self a log target_currency conv st :
  accounts st !! self = Some a ->
  lists st !! transactions a = Some log ->
  target_currency ∈ SUPPORTED_CURRENCIES ->
  convert_to self target_currency conv st
  = match convert (converter_or_default conv) (PyDecimal (balance a))
            (currency a) target_currency with
    | Ok new_balance =>
        (Ok new_balance,
         mkStore
           (<[self := mkAccount (owner a) new_balance target_currency
                        (transactions a) (is_blocked a) (overdraft_limit a)]>
              (accounts st))
           (<[transactions a :=
                log ++ [("Конвертировать в " +:+ target_currency)%string]]>
              (lists st)))
    | Raise e => (Raise e, st)
    end.
Proof.
  intros Ha Hlog Hcur. unfold convert_to.
  destruct (decide (target_currency ∉ _)) as [|_]; [done|].
  rewrite (bind_get _ _ _ _ Ha), bind_lift.
  destruct (convert _ _ _ _) as [nb|]; [|done].
  rewrite (bind_update _ _ _ _ _ Ha).
  set (st1 := mkStore _ _).
  assert (Hself1 : accounts st1 !! self = Some (set_balance nb a))
    by apply lookup_insert_eq.
  rewrite (bind_update _ _ _ _ _ Hself1).
  set (st2 := mkStore _ _).
  assert (Hself2 : accounts st2 !! self
                   = Some (set_currency target_currency (set_balance nb a)))
    by apply lookup_insert_eq.
  rewrite (bind_get _ _ _ _ Hself2).
  cbn [set_balance set_currency transactions currency].
  assert (Hlog2 : lists st2 !! transactions a = Some log) by done.
  rewrite (bind_append _ _ _ _ _ Hlog2).
  set (st3 := mkStore _ _).
  assert (Hself3 : accounts st3 !! self
                   = Some (set_currency target_currency (set_balance nb a)))
    by apply lookup_insert_eq.
  rewrite (bind_get _ _ _ _ Hself3).
  unfold st3, st2, st1. cbn. by rewrite insert_insert_eq.
Qed.

Lemma convert_to_run_witness :
  convert_to 1 "USD" (Some conv_RUB_USD) store_blocked
  = (Ok (Fin false 100 (-2)),
     mkStore (<[1%positive := mkAccount "A" (Fin false 100 (-2)) "USD" 1 true
                                (Fin false 0 (-2))]> (accounts store_blocked))
       (<[1%positive := ["Конвертировать в USD"%string]]>
          (lists store_blocked))).
Proof.
  rewrite (convert_to_run 1 account_A_blocked [] "USD" (Some conv_RUB_USD)
             store_blocked); [done|done|done|].
  unfold SUPPORTED_CURRENCIES. set_solver.
Defined.

(** ** Construction of accounts *)

Lemma fresh_account st : accounts st !! fresh (dom (accounts st)) = None.
Proof. apply not_elem_of_dom, is_fresh. Qed.

Lemma fresh_list st : lists st !! fresh (dom (lists st)) = None.
Proof. apply not_elem_of_dom, is_fresh. Qed.

(** Every outcome of the constructor. *)
Lemma BankAccount__init___inv owner0 balance0 currency0 st r st' :
  BankAccount__init__ owner0 balance0 currency0 st = (r, st') ->
  (st' = st /\
   ((r = Raise ValueError /\
     forall o, owner0 = PyStr o ->
       is_blank o = true \/ currency0 ∉ SUPPORTED_CURRENCIES) \/
    (exists o e, owner0 = PyStr o /\ is_blank o = false /\
       currency0 ∈ SUPPORTED_CURRENCIES /\
       _to_decimal_money balance0 = Raise e /\ r = Raise e))) \/
  (exists o b, owner0 = PyStr o /\ is_blank o = false /\
     currency0 ∈ SUPPORTED_CURRENCIES /\
     _to_decimal_money balance0 = Ok b /\
     r = Ok (fresh (dom (accounts st))) /\
     st' = mkStore
             (<[fresh (dom (accounts st)) :=
                  mkAccount o b currency0 (fresh (dom (lists st))) false
                    (Fin false 0 (-2))]> (accounts st))
             (<[fresh (dom (lists st)) := []]> (lists st))).
Proof.
  unfold BankAccount__init__. intros Hrun.
  destruct owner0 as [| | | |o|];
    try (injection Hrun as <- <-; left; split; [done|]; left; by split).
  destruct (is_blank o) eqn:Hblank.
  { injection Hrun as <- <-. left. split; [done|]. left.
    split; [done|]. intros ? [= <-]. by left. }
  destruct (decide (currency0 ∉ _)) as [Hcur|Hcur%dec_stable].
  { injection Hrun as <- <-. left. split; [done|]. left.
    split; [done|]. intros ? _. by right. }
  rewrite bind_lift in Hrun.
  destruct (_to_decimal_money balance0) as [b|e] eqn:Hnorm.
  - injection Hrun as <- <-. right. by exists o, b.
  - injection Hrun as <- <-. left. split; [done|]. right. by exists o, e.
Qed.

(** A constructed account is a new object, and so is its transaction
    list, which is empty and which no account that existed refers to; the
    owner is the non-blank str given, the currency the supported one given,
    the balance the normalized one; the account is not blocked and has no
    overdraft; the objects that existed are as they were. *)
Theorem account_init_new owner0 balance0 currency0 st self st' :
  BankAccount__init__ owner0 balance0 currency0 st = (Ok self, st') ->
  exists a,
    accounts st !! self = None /\
    accounts st' = <[self := a]> (accounts st) /\
    lists st !! transactions a = None /\
    lists st' = <[transactions a := []]> (lists st) /\
    owner0 = PyStr (owner a) /\ is_blank (owner a) = false /\
    currency a = currency0 /\ currency0 ∈ SUPPORTED_CURRENCIES /\
    _to_decimal_money balance0 = Ok (balance a) /\
    is_blocked a = false /\ overdraft_limit a = Fin false 0 (-2).
Proof.
  intros Hrun.
  apply BankAccount__init___inv in Hrun
    as [[_ [[[=] _]|(? & ? & _ & _ & _ & _ & [=])]]
       |(o & b & -> & Hblank & Hcur & Hnorm & [= ->] & ->)].
  eexists (mkAccount o b currency0 _ false _). cbn.
  split; [apply fresh_account|]. split; [done|].
  split; [apply fresh_list|]. done.
Qed.

Lemma account_init_new_witness :
  exists a,
    accounts store_AB !! 3%positive = None /\
    accounts
      (snd (BankAccount__init__ (PyStr "Alice") (PyInt 0) "RUB" store_AB))
    = <[3%positive := a]> (accounts store_AB) /\
    lists store_AB !! transactions a = None /\
    lists (snd (BankAccount__init__ (PyStr "Alice") (PyInt 0) "RUB" store_AB))
    = <[transactions a := []]> (lists store_AB) /\
    PyStr "Alice" = PyStr (owner a) /\ is_blank (owner a) = false /\
    currency a = "RUB"%string /\ "RUB"%string ∈ SUPPORTED_CURRENCIES /\
    _to_decimal_money (PyInt 0) = Ok (balance a) /\
    is_blocked a = false /\ overdraft_limit a = Fin false 0 (-2).
Proof.
  apply (account_init_new (PyStr "Alice") (PyInt 0) "RUB" store_AB).
  by vm_compute.
Defined.



(** Construction keeps the store well formed: every account still has its
    own transaction list, shared with no other account; and every balance
    is still a money value unless the balance given is a quiet NaN, which
    normalization lets through. *)
Theorem account_init_well_formed owner0 balance0 currency0 st self st' :
  lists_owned st ->
  BankAccount__init__ owner0 balance0 currency0 st = (Ok self, st') ->
  lists_owned st' /\
  (balances_money st ->
   balance0 <> PyFloat (NaN false) -> balance0 <> PyDecimal (NaN false) ->
   balances_money st').
Proof.
  intros Howned Hrun.
  apply BankAccount__init___inv in Hrun
    as [[_ [[[=] _]|(? & ? & _ & _ & _ & _ & [=])]]
       |(o & b & -> & Hblank & Hcur & Hnorm & [= ->] & ->)].
  pose proof (fresh_account st) as Hself.
  pose proof (fresh_list st) as Hl.
  set (self := fresh (dom (accounts st))) in *.
  set (l := fresh (dom (lists st))) in *.
  split.
  - intros r x Hx. cbn in Hx |- *.
    apply lookup_insert_Some in Hx as [[<- <-]|[Hne Hx]]; cbn.
    + split; [rewrite lookup_insert_eq; eauto|].
      intros r' x' Hx' Heq.
      apply lookup_insert_Some in Hx' as [[<- _]|[_ Hx']]; [done|].
      destruct (Howned r' x' Hx') as [[xs Hxs] _]. congruence.
    + destruct (Howned r x Hx) as [[xs Hxs] Hown].
      split; [rewrite lookup_insert_ne by congruence; eauto|].
      intros r' x' Hx' Heq.
      apply lookup_insert_Some in Hx' as [[<- <-]|[_ Hx']]; [|by eauto].
      cbn in Heq. congruence.
  - intros Hmoney Hf Hd r x Hx. cbn in Hx.
    apply lookup_insert_Some in Hx as [[<- <-]|[_ Hx]]; [|by eauto]. cbn.
    destruct balance0 as [?|n|f|d|?|]; try done.
    + by apply quantize_result in Hnorm as [Hm|[_ [=]]].
    + apply quantize_result in Hnorm as [Hm|[-> ->]]; [done|congruence].
    + apply quantize_result in Hnorm as [Hm|[-> ->]]; [done|congruence].
Qed.

Lemma store_AB_lists_owned : lists_owned store_AB.
Proof.
  assert (Hall : forall r a, accounts store_AB !! r = Some a ->
            (r = 1%positive /\ a = account_A) \/
            (r = 2%positive /\ a = account_B)).
  { intros r a Ha. unfold store_AB in Ha. cbn in Ha.
    apply lookup_insert_Some in Ha as [[<- <-]|[_ Ha]]; [by left|].
    apply lookup_singleton_Some in Ha as [<- <-]. by right. }
  intros r a Ha.
  destruct (Hall r a Ha) as [[-> ->]|[-> ->]];
    (split; [by eexists|]); intros r' a' Ha' Heq;
    by destruct (Hall r' a' Ha') as [[-> ->]|[-> ->]].
Qed.

Lemma account_init_well_formed_witness :
  lists_owned
    (snd (BankAccount__init__ (PyStr "Alice") (PyInt 0) "RUB" store_AB)) /\
  (balances_money store_AB ->
   PyInt 0 <> PyFloat (NaN false) -> PyInt 0 <> PyDecimal (NaN false) ->
   balances_money
     (snd (BankAccount__init__ (PyStr "Alice") (PyInt 0) "RUB" store_AB))).
Proof.
  apply (account_init_well_formed (PyStr "Alice") (PyInt 0) "RUB" store_AB 3).
  - exact store_AB_lists_owned.
  - by vm_compute.
Defined.

(** ** Registration of accounts in a bank *)

(** Every outcome of [create_account]. *)
Lemma create_account_inv self owner0 initial_balance currency0 st r st' :
  create_account self owner0 initial_balance currency0 st = (r, st') ->
  (owner0 = PyDecimal (NaN true) /\ r = Raise TypeError /\ st' = st) \/
  (exists o, owner0 = PyStr o /\ o ∈ (bank_accounts self).*1 /\
     r = Raise ValueError /\ st' = st) \/
  ((forall o, owner0 = PyStr o -> o ∉ (bank_accounts self).*1) /\
   ((exists e, BankAccount__init__ owner0 initial_balance currency0 st
               = (Raise e, st') /\ r = Raise e) \/
    (exists o account,
       owner0 = PyStr o /\
       BankAccount__init__ owner0 initial_balance currency0 st
       = (Ok account, st') /\
       r = Ok (account,
               mkBank (name self) (bank_accounts self ++ [(o, account)]))))).
Proof.
  unfold create_account. intros Hrun. rewrite bind_lift in Hrun.
  assert (Hnew : forall k, (forall o, owner0 = PyStr o ->
                              o ∉ (bank_accounts self).*1) ->
            (BankAccount__init__ owner0 initial_balance currency0 ≫= k) st
            = (r, st') ->
            (forall account, k account
               = mret (account,
                       mkBank (name self)
                         (dict_set owner0 account (bank_accounts self)))) ->
            (exists e, BankAccount__init__ owner0 initial_balance currency0 st
                       = (Raise e, st') /\ r = Raise e) \/
            (exists o account,
               owner0 = PyStr o /\
               BankAccount__init__ owner0 initial_balance currency0 st
               = (Ok account, st') /\
               r = Ok (account,
                       mkBank (name self)
                         (bank_accounts self ++ [(o, account)])))).
  { intros k Hfree Hk Hkeq. unfold mbind, M_bind in Hk.
    destruct (BankAccount__init__ owner0 initial_balance currency0 st)
      as [[account|e] st1] eqn:Hinit.
    - rewrite Hkeq in Hk. injection Hk as <- <-. right.
      destruct (BankAccount__init___inv _ _ _ _ _ _ Hinit)
        as [[_ [[[=] _]|(? & ? & _ & _ & _ & _ & [=])]]
           |(o & b & -> & _)].
      exists o, account. split; [done|]. split; [done|].
      unfold dict_set. by rewrite bool_decide_eq_false_2 by eauto.
    - injection Hk as <- <-. left. by exists e. }
  destruct owner0 as [b|n|f|d|o|]; cbn [owner_in] in Hrun.
  1-3, 6: right; right; split; [done|]; by eapply Hnew.
  - destruct d as [? ? ?|?|[|]];
      try (right; right; split; [done|]; by eapply Hnew).
    injection Hrun as <- <-. by left.
  - destruct (bool_decide_reflect (o ∈ (bank_accounts self).*1)) as [Hin|Hout].
    + injection Hrun as <- <-. right. left. by exists o.
    + right. right. split; [by intros ? [= <-]|].
      eapply Hnew; [by intros ? [= <-] | exact Hrun | done].
Qed.

(** [create_account] that returns has registered a new account object
    under its owner, last in the dict; the owner was not registered
    before, the dict stays in order, and a second [create_account] for the
    same owner raises ValueError, whatever its other arguments and the
    store, and leaves the store alone. *)
Theorem create_account_registers self owner0 initial_balance currency0 st
    account bank' st' :
  registered st self ->
  create_account self owner0 initial_balance currency0 st
  = (Ok (account, bank'), st') ->
  registered st' bank' /\ name bank' = name self /\
  exists o,
    owner0 = PyStr o /\ (o ∉ (bank_accounts self).*1) /\
    bank_accounts bank' = bank_accounts self ++ [(o, account)] /\
    accounts st !! account = None /\
    forall balance2 currency2 st2,
      create_account bank' owner0 balance2 currency2 st2
      = (Raise ValueError, st2).
Proof.
  intros [Hnodup Hreg] Hrun.
  apply create_account_inv in Hrun
    as [(_ & [=] & _)|[(? & _ & _ & [=] & _)
       |[Hfree [(? & _ & [=])|(o & acc & -> & Hinit & [= -> ->])]]]].
  specialize (Hfree o eq_refl).
  apply BankAccount__init___inv in Hinit
    as [[_ [[[=] _]|(? & ? & _ & _ & _ & _ & [=])]]
       |(? & b & [= <-] & _ & _ & _ & [= ->] & ->)].
  pose proof (fresh_account st) as Hself.
  set (self0 := fresh (dom (accounts st))) in *.
  unfold registered. cbn [bank_accounts name accounts].
  split; [split|split; [done|]].
  - rewrite fmap_app. apply NoDup_app. split; [done|].
    split; [|apply NoDup_singleton].
    cbn. intros x Hx ->%list_elem_of_singleton. done.
  - intros o' r [Hin|[= -> ->]%list_elem_of_singleton]%elem_of_app.
    + destruct (Hreg o' r Hin) as (a & Ha & Hown). exists a.
      split; [|done]. rewrite lookup_insert_ne; [done|congruence].
    + eexists. split; [apply lookup_insert_eq|done].
  - exists o. do 3 (split; [done|]). split; [done|].
    intros balance2 currency2 st2. unfold create_account.
    rewrite bind_lift. cbn [owner_in bank_accounts].
    rewrite bool_decide_eq_true_2; [done|].
    rewrite fmap_app. apply elem_of_app. right. cbn. set_solver.
Qed.

Lemma MyBank_registered : registered store_bank MyBank.
Proof.
  split.
  - cbn. apply NoDup_cons.
    split; [by intros ?%list_elem_of_singleton | apply NoDup_singleton].
  - intros o r Hin. unfold MyBank in Hin. cbn in Hin.
    apply elem_of_cons in Hin as [[= -> ->]|Hin].
    + by exists account_A10.
    + apply list_elem_of_singleton in Hin as [= -> ->]. by exists account_B5.
Qed.

Lemma create_account_registers_witness :
  let run := create_account MyBank (PyStr "C") (PyInt 7) "EUR" store_bank in
  registered (snd run) (mkBank "MyBank" [("A", 1); ("B", 2); ("C", 3)]%positive)
  /\ "MyBank"%string = name MyBank /\
  exists o,
    PyStr "C" = PyStr o /\ (o ∉ (bank_accounts MyBank).*1) /\
    [("A", 1); ("B", 2); ("C", 3)]%positive
    = bank_accounts MyBank ++ [(o, 3%positive)] /\
    accounts store_bank !! 3%positive = None /\
    forall balance2 currency2 st2,
      create_account (mkBank "MyBank" [("A", 1); ("B", 2); ("C", 3)]%positive)
        (PyStr "C") balance2 currency2 st2
      = (Raise ValueError, st2).
Proof.
  apply (create_account_registers MyBank (PyStr "C") (PyInt 7) "EUR" store_bank
           3 (mkBank "MyBank" [("A", 1); ("B", 2); ("C", 3)]%positive)).
  - exact MyBank_registered.
  - by vm_compute.
Defined.



(** ** Blocked accounts and the total *)

Lemma total_loop_skips converter currency0 (accs : list (string * positive))
    total st :
  total_loop converter currency0 (snd <$> accs) total st
  = total_loop converter currency0
      (snd <$> filter (fun kv => not_blocked st kv.2 = true) accs) total st.
Proof.
  revert total. induction accs as [|[o r] accs IH]; intros total; [done|].
  rewrite filter_cons. cbn [snd].
  destruct (decide (not_blocked st r = true)) as [Hk|Hk];
    unfold not_blocked in Hk; cbn [snd fmap list_fmap total_loop];
    destruct (accounts st !! r) as [a|] eqn:Ha.
  - rewrite !(bind_get _ _ _ _ Ha).
    destruct (is_blocked a); [done|].
    rewrite !(bind_get _ _ _ _ Ha), !bind_lift.
    destruct (convert _ _ _ _); [|done]. rewrite !bind_lift.
    destruct (add _ _); [apply IH|done].
  - by rewrite !bind_get_None.
  - rewrite (bind_get _ _ _ _ Ha).
    destruct (is_blocked a); [apply IH|done].
  - done.
Qed.

(** [total_deposits] gives the same outcome as on the bank without its
    blocked accounts: a blocked account is skipped before its balance and
    its currency are read, so neither can make the total fail. *)
Theorem total_deposits_skips_blocked self currency0 converter st :
  total_deposits self currency0 converter st
  = total_deposits
      (mkBank (name self)
         (filter (fun kv => not_blocked st kv.2 = true) (bank_accounts self)))
      currency0 converter st.
Proof.
  unfold total_deposits. destruct (decide (currency0 ∉ _)); [done|].
  unfold mbind, M_bind. cbn [bank_accounts].
  by rewrite total_loop_skips.
Qed.

Lemma total_loop_nil converter currency0 total st :
  total_loop converter currency0 [] total st = (Ok total, st).
Proof. done. Qed.

Lemma total_deposits_nil self currency0 converter st :
  currency0 ∈ SUPPORTED_CURRENCIES ->
  filter (fun kv => not_blocked st kv.2 = true) (bank_accounts self) = [] ->
  total_deposits self currency0 converter st = (Ok (Fin false 0 (-2)), st).
Proof.
  intros Hcur Hnone. unfold total_deposits.
  destruct (decide (currency0 ∉ _)); [done|].
  unfold mbind, M_bind. by rewrite total_loop_skips, Hnone.
Qed.

(** A bank all of whose accounts are blocked (or that has none) totals
    0.00 in every supported currency, with any converter and whatever the
    balances and currencies of the accounts are. *)
Theorem total_deposits_all_blocked self currency0 converter st :
  currency0 ∈ SUPPORTED_CURRENCIES ->
  (forall o r, (o, r) ∈ bank_accounts self ->
     exists a, accounts st !! r = Some a /\ is_blocked a = true) ->
  total_deposits self currency0 converter st = (Ok (Fin false 0 (-2)), st).
Proof.
  intros Hcur Hall. apply total_deposits_nil; [done|].
  induction (bank_accounts self) as [|[o r] accs IH]; [done|].
  rewrite filter_cons. cbn [snd].
  destruct (Hall o r) as (a & Ha & Hb); [left|].
  rewrite decide_False; [|unfold not_blocked; by rewrite Ha, Hb].
  apply IH.
  intros o' r' Hin. apply (Hall o' r'). by right.
Qed.

Lemma total_deposits_all_blocked_witness :
  total_deposits (mkBank "B" [("A", 1%positive)]) "EUR" (Some BadConv)
    store_blocked
  = (Ok (Fin false 0 (-2)), store_blocked).
Proof.
  apply total_deposits_all_blocked.
  - unfold SUPPORTED_CURRENCIES. set_solver.
  - intros o r [= -> ->]%list_elem_of_singleton. by exists account_A_blocked.
Defined.

(** A bank that was just constructed has the non-blank str given as its
    name, is in order in every store, and totals 0.00 in every supported
    currency. *)
Theorem new_bank_holds_nothing name0 b currency0 converter st :
  Bank__init__ name0 = Ok b ->
  currency0 ∈ SUPPORTED_CURRENCIES ->
  name0 = PyStr (name b) /\ is_blank (name b) = false /\
  registered st b /\
  total_deposits b currency0 converter st = (Ok (Fin false 0 (-2)), st).
Proof.
  intros Hnew Hcur. unfold Bank__init__ in Hnew.
  destruct name0 as [| | | |n|]; try done.
  destruct (is_blank n) eqn:Hblank; [done|]. injection Hnew as <-.
  cbn [name]. do 2 (split; [done|]). split.
  - split; [apply NoDup_nil_2|]. by intros o r ?%elem_of_nil.
  - by apply total_deposits_nil.
Qed.

Lemma new_bank_holds_nothing_witness :
  PyStr "MyBank" = PyStr (name (mkBank "MyBank" [])) /\
  is_blank (name (mkBank "MyBank" [])) = false /\
  registered store_AB (mkBank "MyBank" []) /\
  total_deposits (mkBank "MyBank" []) "RUB" None store_AB
  = (Ok (Fin false 0 (-2)), store_AB).
Proof.
  apply (new_bank_holds_nothing (PyStr "MyBank")); [done|].
  unfold SUPPORTED_CURRENCIES. set_solver.
Defined.

(** ** The store stays well formed *)

Lemma evolves_lists_owned st st' :
  evolves st st' -> lists_owned st -> lists_owned st'.
Proof.
  intros [Hacc Hlists] Howned r x Hx.
  pose proof (Hacc r) as Hr. rewrite Hx in Hr.
  destruct (accounts st !! r) as [a|] eqn:Ha; [|done].
  destruct Hr as (_ & Htx & _).
  destruct (Howned r a Ha) as [[xs Hxs] Huniq]. split.
  - pose proof (Hlists (transactions a)) as Hl. rewrite Hxs in Hl.
    rewrite Htx. destruct (lists st' !! transactions a); [eauto|done].
  - intros r' x' Hx' Heq.
    pose proof (Hacc r') as Hr'. rewrite Hx' in Hr'.
    destruct (accounts st !! r') as [a'|] eqn:Ha'; [|done].
    destruct Hr' as (_ & Htx' & _). apply (Huniq r' a' Ha'). congruence.
Qed.

Lemma evolves_registered st st' b :
  evolves st st' -> registered st b -> registered st' b.
Proof.
  intros [Hacc _] [Hnodup Hreg]. split; [done|].
  intros o r Hin. destruct (Hreg o r Hin) as (a & Ha & Hown).
  pose proof (Hacc r) as Hr. rewrite Ha in Hr.
  destruct (accounts st' !! r) as [a'|]; [|done].
  destruct Hr as (Hown' & _). exists a'. split; [done|congruence].
Qed.

(** The four mutating methods, returning or raising, keep the store and
    every bank in order: each account still has a transaction list of its
    own, and each bank still registers every account once, under its
    owner. *)
Theorem mutators_keep_order self amount target conv target_currency b
    st r st' :
  lists_owned st -> registered st b ->
  deposit self amount st = (r, st') \/
  withdraw self amount st = (r, st') \/
  convert_to self target_currency conv st = (r, st') \/
  transfer self target amount conv st = (r, st') ->
  lists_owned st' /\ registered st' b.
Proof.
  intros Howned Hreg Hrun.
  assert (Hev : evolves st st').
  { clear Howned Hreg.
    destruct Hrun as [Hrun|[Hrun|[Hrun|Hrun]]]; revert st r st' Hrun;
      change (preserves evolves (deposit self amount)) ||
      change (preserves evolves (withdraw self amount)) ||
      change (preserves evolves (convert_to self target_currency conv)) ||
      change (preserves evolves (transfer self target amount conv)).
    - unfold deposit. preserves_steps evolves.
    - unfold withdraw. preserves_steps evolves.
    - unfold convert_to. preserves_steps evolves.
    - unfold transfer. preserves_steps evolves. }
  split; [by eapply evolves_lists_owned | by eapply evolves_registered].
Qed.

Lemma mutators_keep_order_witness :
  lists_owned (deposit 1 (PyInt 5) store_AB).2 /\
  registered (deposit 1 (PyInt 5) store_AB).2
    (mkBank "MyBank" [("A", 1%positive); ("B", 2%positive)]).
Proof.
  apply (mutators_keep_order 1 (PyInt 5) None None "RUB"
           (mkBank "MyBank" [("A", 1%positive); ("B", 2%positive)]) store_AB
           (deposit 1 (PyInt 5) store_AB).1).
  - exact store_AB_lists_owned.
  - split.
    + cbn. apply NoDup_cons.
      split; [by intros ?%list_elem_of_singleton | apply NoDup_singleton].
    + intros o r Hin. cbn in Hin.
      apply elem_of_cons in Hin as [[= -> ->]|Hin].
      * by exists account_A.
      * apply list_elem_of_singleton in Hin as [= -> ->]. by exists account_B.
  - left. apply surjective_pairing.
Defined.
